(** * CircadianZone: the per-zone lighting controller

    A shallow embedding of the [CircadianZone] device class (mode state
    machine, interpolation from the day-progress percentage, night targets,
    manual override, settings validation) together with the properties its
    specification states about it.

    Numbers.  The mode machine, change detection and frame properties are
    stated over exact rationals ([Qc], rationals in lowest terms, so that
    [=] is numeric equality), with [Math.round] as [floor (x + 1/2)]; they
    do not depend on how a product or a quotient is rounded.  What
    [updateFromPercentage] computes does, so the recompute path is given a
    second time in module [Binary64], over IEEE-754 binary64 with NaN, the
    infinities and both zeros, and the properties of the computed values
    are stated there.

    Effects.  Every method is a computation over the device object: it reads
    the host environment ([this.driver], [this.homey]), updates the private
    fields, and performs host calls.  The host calls ([setCapabilityValue],
    the driver's [triggerValuesChangedFlow], [log]) are recorded, in program
    order, in a trace.  Host calls are taken to succeed. *)

From Stdlib Require Import ZArith QArith Qcanon Qround String List Bool Lia Lqa.
From Stdlib Require Import Floats.SpecFloat.
Import ListNotations.

Local Open Scope string_scope.
Local Open Scope Qc_scope.

(** ** Numbers *)

Definition num := Qc.

(** decimal literal [n / d] *)
Definition lit (n : Z) (d : positive) : num := Q2Qc (n # d).

Definition hundred : num := lit 100 1.
Definition minus_one : num := lit (-1) 1.

(** [x > y], [x >= y], [x != y] on numbers *)
Definition gt (x y : num) : bool := negb (Qle_bool x y).
Definition ge (x y : num) : bool := Qle_bool y x.
Definition neq (x y : num) : bool := negb (Qeq_bool x y).

(** [Math.round], in exact arithmetic ([Binary64.Math_round] in binary64) *)
Definition Math_round (x : num) : num :=
  Q2Qc (inject_Z (Qfloor (x + (1 # 2))%Q)).

(** the idiom [Math.round(x * 100) / 100] of [updateFromPercentage] *)
Definition round2 (x : num) : num := Math_round (x * hundred) / hundred.

(** ** The device object *)

Record CircadianZone := mkZone {
  _mode : string;
  _sunsetTemp : num;
  _noonTemp : num;
  _minBrightness : num;
  _maxBrightness : num;
  _nightTemperature : num;
  _nightBrightness : num;
  _currentBrightness : num;
  _currentTemperature : num
}.

(** the field initialisers of the class *)
Definition initial : CircadianZone :=
  {| _mode := "adaptive";
     _sunsetTemp := lit 100 100;
     _noonTemp := lit 40 100;
     _minBrightness := lit 10 100;
     _maxBrightness := lit 100 100;
     _nightTemperature := lit 100 100;
     _nightBrightness := lit 10 100;
     _currentBrightness := lit 100 100;
     _currentTemperature := lit 40 100 |}.

Definition set_mode (v : string) (z : CircadianZone) : CircadianZone :=
  mkZone v (_sunsetTemp z) (_noonTemp z) (_minBrightness z) (_maxBrightness z)
         (_nightTemperature z) (_nightBrightness z)
         (_currentBrightness z) (_currentTemperature z).

Definition set_currentBrightness (v : num) (z : CircadianZone) : CircadianZone :=
  mkZone (_mode z) (_sunsetTemp z) (_noonTemp z) (_minBrightness z) (_maxBrightness z)
         (_nightTemperature z) (_nightBrightness z)
         v (_currentTemperature z).

Definition set_currentTemperature (v : num) (z : CircadianZone) : CircadianZone :=
  mkZone (_mode z) (_sunsetTemp z) (_noonTemp z) (_minBrightness z) (_maxBrightness z)
         (_nightTemperature z) (_nightBrightness z)
         (_currentBrightness z) v.

(** the [newSettings] object of the settings event: percentages *)
Record Settings := mkSettings {
  max_brightness : num;
  min_brightness : num;
  night_brightness : num;
  night_temp : num;
  sunset_temp : num;
  noon_temp : num
}.

(** the six assignments of [onSettings] *)
Definition set_config (s : Settings) (z : CircadianZone) : CircadianZone :=
  mkZone (_mode z)
         (sunset_temp s / hundred) (noon_temp s / hundred)
         (min_brightness s / hundred) (max_brightness s / hundred)
         (night_temp s / hundred) (night_brightness s / hundred)
         (_currentBrightness z) (_currentTemperature z).

(** ** The host *)

(** What the methods read from the host: the driver's current day-progress
    percentage ([this.driver.getPercentage()]) and the localisation table
    ([this.homey.__]).  Both live outside the class. *)
Record Host := mkHost {
  getPercentage : num;
  homey__ : string -> string
}.

Inductive value :=
| VString (s : string)
| VNumber (x : num).

(** the [this.log] call sites, with the values they interpolate *)
Inductive message :=
| TriggeringZoneUpdate
| NoChangesNeeded (newMode : string)
| ModeNotChanged
| ModeChangedTo (v : string)
| TemperatureOverrideTo (newTemperature : num)
| DimOverrideTo (newBrightness : num)
| SettingsWereChanged (newSettings : Settings)
| UpdatingToNight (brightness temperature : num)
| AlreadyAtNightTargets
| NotInAdaptiveMode (mode : string)
| UpdatingFromPercentage (percentage : num)
| BrightnessUpdated (brightness lo hi : num)
| NoChangeInBrightness (brightness : num)
| TemperatureUpdated (temperature sunset noon : num)
| NoChangeInTemperature (temperature : num)
| TriggeringValuesChanged (temperature brightness : num).

Inductive effect :=
| SetCapabilityValue (capabilityId : string) (v : value)
| ValuesChangedFlow (brightness temperature : num)
| Log (m : message).

(** ** Methods as computations *)

Definition M (A : Type) : Type :=
  Host -> CircadianZone -> A * CircadianZone * list effect.

Definition ret {A} (a : A) : M A := fun _ z => (a, z, []).

Definition bind {A B} (m : M A) (k : A -> M B) : M B :=
  fun h z =>
    let '(a, z1, t1) := m h z in
    let '(b, z2, t2) := k a h z1 in
    (b, z2, (t1 ++ t2)%list).

Declare Scope zone_scope.
Delimit Scope zone_scope with zone.
Notation "x <- m ;; k" := (bind m (fun x => k))
  (at level 61, m at next level, right associativity) : zone_scope.
Notation "m ;; k" := (bind m (fun _ => k))
  (at level 61, right associativity) : zone_scope.
Local Open Scope zone_scope.

Definition self : M CircadianZone := fun _ z => (z, z, []).
Definition host : M Host := fun h z => (h, z, []).
Definition assign (f : CircadianZone -> CircadianZone) : M unit :=
  fun _ z => (tt, f z, []).
Definition perform (e : effect) : M unit := fun _ z => (tt, z, [e]).

Definition log (m : message) : M unit := perform (Log m).
Definition setCapabilityValue (capabilityId : string) (v : value) : M unit :=
  perform (SetCapabilityValue capabilityId v).

Definition when (b : bool) (m : M unit) : M unit := if b then m else ret tt.

(** projections of a run *)
Definition result {A} (r : A * CircadianZone * list effect) : A := fst (fst r).
Definition zone {A} (r : A * CircadianZone * list effect) : CircadianZone := snd (fst r).
Definition trace {A} (r : A * CircadianZone * list effect) : list effect := snd r.

(** [triggerValuesChangedFlow] *)
Definition triggerValuesChangedFlow (brightness temperature : num) : M unit :=
  log (TriggeringValuesChanged temperature brightness) ;;
  perform (ValuesChangedFlow brightness temperature).

(** the two target values [updateFromPercentage] computes, in exact
    arithmetic; [Binary64.brightness_of] and [Binary64.temperature_of] are
    the same expressions in binary64 *)
Definition brightness_of (z : CircadianZone) (percentage : num) : num :=
  let brightnessDelta := _maxBrightness z - _minBrightness z in
  Math_round ((if gt percentage 0
               then (brightnessDelta * percentage) + _minBrightness z
               else _minBrightness z) * hundred) / hundred.

Definition temperature_of (z : CircadianZone) (percentage : num) : num :=
  let tempDelta := _sunsetTemp z - _noonTemp z in
  let calculatedTemperature := (tempDelta * (1 - percentage)) + _noonTemp z in
  Math_round ((if gt percentage 0
               then calculatedTemperature
               else _sunsetTemp z) * hundred) / hundred.

(** [updateFromPercentage]; [valuesChanged2] is the final [valuesChanged] *)
Definition updateFromPercentage (percentage : num) : M unit :=
  z <- self ;;
  if negb (String.eqb (_mode z) "adaptive") then
    log (NotInAdaptiveMode (_mode z))
  else
    log (UpdatingFromPercentage percentage) ;;
    let brightness := brightness_of z percentage in
    valuesChanged1 <-
      (if neq brightness (_currentBrightness z) then
         assign (set_currentBrightness brightness) ;;
         setCapabilityValue "dim" (VNumber brightness) ;;
         log (BrightnessUpdated brightness (_minBrightness z) (_maxBrightness z)) ;;
         ret true
       else
         log (NoChangeInBrightness (_currentBrightness z)) ;;
         ret false) ;;
    let temperature := temperature_of z percentage in
    valuesChanged2 <-
      (if neq temperature (_currentTemperature z) then
         assign (set_currentTemperature temperature) ;;
         log (TemperatureUpdated temperature (_sunsetTemp z) (_noonTemp z)) ;;
         setCapabilityValue "light_temperature" (VNumber temperature) ;;
         log (TemperatureUpdated temperature (_sunsetTemp z) (_noonTemp z)) ;;
         ret true
       else
         log (NoChangeInTemperature (_currentTemperature z)) ;;
         ret valuesChanged1) ;;
    when valuesChanged2 (triggerValuesChangedFlow brightness temperature).

(** [updateFromNightMode] *)
Definition updateFromNightMode : M unit :=
  z <- self ;;
  if neq (_currentBrightness z) (_nightBrightness z)
     || neq (_currentTemperature z) (_nightTemperature z) then
    log (UpdatingToNight (_nightBrightness z) (_nightTemperature z)) ;;
    assign (set_currentBrightness (_nightBrightness z)) ;;
    assign (set_currentTemperature (_nightTemperature z)) ;;
    setCapabilityValue "dim" (VNumber (_nightBrightness z)) ;;
    setCapabilityValue "light_temperature" (VNumber (_nightTemperature z)) ;;
    triggerValuesChangedFlow (_nightBrightness z) (_nightTemperature z)
  else
    log AlreadyAtNightTargets.

(** [refreshZone] *)
Definition refreshZone : M unit :=
  z <- self ;;
  if String.eqb (_mode z) "adaptive" then
    h <- host ;;
    updateFromPercentage (getPercentage h)
  else if String.eqb (_mode z) "night" then
    updateFromNightMode
  else
    ret tt.

(** [setMode] *)
Definition setMode (newMode : string) : M unit :=
  z <- self ;;
  if negb (String.eqb (_mode z) newMode) then
    assign (set_mode newMode) ;;
    setCapabilityValue "adaptive_mode" (VString newMode) ;;
    if String.eqb newMode "adaptive" || String.eqb newMode "night" then
      log TriggeringZoneUpdate ;;
      refreshZone
    else
      log (NoChangesNeeded newMode)
  else
    log ModeNotChanged.

(** [overrideCurrentBrightnessTemperature]; a negative component of
    [newValues] stands for "not given" *)
Definition overrideCurrentBrightnessTemperature
    (newBrightness newTemperature : num) : M unit :=
  z <- self ;;
  valueChanged1 <-
    (if ge newBrightness 0 && neq (_currentBrightness z) newBrightness then
       assign (set_currentBrightness newBrightness) ;; ret true
     else ret false) ;;
  valueChanged2 <-
    (if ge newTemperature 0 && neq (_currentTemperature z) newTemperature then
       assign (set_currentTemperature newTemperature) ;; ret true
     else ret valueChanged1) ;;
  when valueChanged2
    (z1 <- self ;;
     when (negb (String.eqb (_mode z1) "manual")) (setMode "manual") ;;
     z2 <- self ;;
     triggerValuesChangedFlow (_currentBrightness z2) (_currentTemperature z2)).

(** the capability listeners registered by [onInit] *)
Definition adaptive_mode_listener (v : string) : M unit :=
  log (ModeChangedTo v) ;;
  setMode v.

Definition light_temperature_listener (newTemperature : num) : M unit :=
  log (TemperatureOverrideTo newTemperature) ;;
  overrideCurrentBrightnessTemperature minus_one newTemperature.

Definition dim_listener (newBrightness : num) : M unit :=
  log (DimOverrideTo newBrightness) ;;
  overrideCurrentBrightnessTemperature newBrightness minus_one.

(** [onSettings]; [Some msg] is the returned message, [None] is [void] *)
Definition onSettings (newSettings : Settings) : M (option string) :=
  if negb (gt (sunset_temp newSettings) (noon_temp newSettings)) then
    h <- host ;;
    ret (Some (homey__ h "temperature_error"))
  else
    log (SettingsWereChanged newSettings) ;;
    assign (set_config newSettings) ;;
    refreshZone ;;
    ret None.

(** ** Observations on traces *)

(** the values-changed notifications of a trace, in order *)
Fixpoint notifications (t : list effect) : list (num * num) :=
  match t with
  | [] => []
  | ValuesChangedFlow b c :: t' => (b, c) :: notifications t'
  | _ :: t' => notifications t'
  end.

(** the capability writes of a trace, in order *)
Fixpoint persisted (t : list effect) : list (string * value) :=
  match t with
  | [] => []
  | SetCapabilityValue k v :: t' => (k, v) :: persisted t'
  | _ :: t' => persisted t'
  end.

(** a test host: the driver is at [pct], messages are not translated *)
Definition host_at (pct : num) : Host := mkHost pct (fun key => key).

(** ** Observations on zones *)

(** the two output values of a zone *)
Definition values (z : CircadianZone) : num * num :=
  (_currentBrightness z, _currentTemperature z).

(** the six configured values of a zone *)
Definition config (z : CircadianZone) : num * num * num * num * num * num :=
  (_sunsetTemp z, _noonTemp z, _minBrightness z, _maxBrightness z,
   _nightTemperature z, _nightBrightness z).

(** a computation notifies exactly when it changes an output value, and
    then once, with the resulting values *)
Definition notifies_iff_changed {A} (m : M A) : Prop :=
  forall (h : Host) (z : CircadianZone),
    let r := m h z in
    (notifications (trace r) <> [] <-> values (zone r) <> values z)
    /\ (notifications (trace r) = []
        \/ notifications (trace r) = [values (zone r)]).

(** ** Events *)

(** The entry points the host and the driver call on a zone once it is
    initialised: the three capability listeners, [onSettings], and the
    driver's push of a recalculated percentage to [updateFromPercentage]. *)
Inductive event :=
| AdaptiveModeSet (v : string)
| LightTemperatureSet (newTemperature : num)
| DimSet (newBrightness : num)
| SettingsChanged (newSettings : Settings)
| PercentageRecalculated (percentage : num).

Definition handle (e : event) : M unit :=
  match e with
  | AdaptiveModeSet v => adaptive_mode_listener v
  | LightTemperatureSet newTemperature => light_temperature_listener newTemperature
  | DimSet newBrightness => dim_listener newBrightness
  | SettingsChanged newSettings => _ <- onSettings newSettings ;; ret tt
  | PercentageRecalculated percentage => updateFromPercentage percentage
  end.

(** events delivered one at a time, each with the host as it is then *)
Fixpoint run (es : list (Host * event)) (z : CircadianZone)
    : CircadianZone * list effect :=
  match es with
  | [] => (z, [])
  | (h, e) :: es' =>
      let r := handle e h z in
      let '(z', t') := run es' (zone r) in
      (z', (trace r ++ t')%list)
  end.

(** the values a trace writes to one capability, in order *)
Definition written (capabilityId : string) (t : list effect) : list value :=
  map snd (filter (fun kv => String.eqb (fst kv) capabilityId) (persisted t)).

Definition night_targets (z : CircadianZone) : num * num :=
  (_nightBrightness z, _nightTemperature z).

Definition targets (z : CircadianZone) (percentage : num) : num * num :=
  (brightness_of z percentage, temperature_of z percentage).

(** the output values agree with the mode: the night targets in night mode,
    the targets of some percentage in adaptive mode *)
Definition settled (z : CircadianZone) : Prop :=
  (_mode z = "night" -> values z = night_targets z)
  /\ (_mode z = "adaptive" -> exists pct, values z = targets z pct).

(** ** Initialisation *)

(** What [onInit] reads back from the host: the three capability values and
    the settings.  [None] is [undefined]; a value that is present is taken
    within the declared type of the field it is assigned to (a string for the
    mode, a number for the rest). *)
Record Stored := mkStored {
  stored_adaptive_mode : option string;
  stored_light_temperature : option num;
  stored_dim : option num;
  getSetting : string -> option num
}.

(** [typeof getSetting(key) !== "undefined" ? Math.round(getSetting(key)) / 100 : field] *)
Definition setting_or (st : Stored) (key : string) (field : num) : num :=
  match getSetting st key with
  | Some v => Math_round v / hundred
  | None => field
  end.

(** [getCapabilityValue("adaptive_mode") || field]: the empty string is falsy *)
Definition mode_or (st : Stored) (field : string) : string :=
  match stored_adaptive_mode st with
  | Some v => if String.eqb v "" then field else v
  | None => field
  end.

Definition capability_or (v : option num) (field : num) : num :=
  match v with
  | Some x => x
  | None => field
  end.

(** the nine assignments that open [onInit] *)
Definition load (st : Stored) (z : CircadianZone) : CircadianZone :=
  {| _mode := mode_or st (_mode z);
     _sunsetTemp := setting_or st "sunset_temp" (_sunsetTemp z);
     _noonTemp := setting_or st "noon_temp" (_noonTemp z);
     _minBrightness := setting_or st "min_brightness" (_minBrightness z);
     _maxBrightness := setting_or st "max_brightness" (_maxBrightness z);
     _nightTemperature := setting_or st "night_temp" (_nightTemperature z);
     _nightBrightness := setting_or st "night_brightness" (_nightBrightness z);
     _currentBrightness := capability_or (stored_dim st) (_currentBrightness z);
     _currentTemperature :=
       capability_or (stored_light_temperature st) (_currentTemperature z) |}.

(** host calls made by [onInit] only *)
Inductive init_effect :=
| Zone (e : effect)
| RegisterCapabilityListener (capabilityId : string)
| LogInitialized.

(** [onInit]: load, write the three capabilities back, register the
    listeners ([adaptive_mode_listener], [light_temperature_listener],
    [dim_listener]), log, [refreshZone] *)
Definition onInit (st : Stored) (h : Host) (z : CircadianZone)
    : CircadianZone * list init_effect :=
  let z0 := load st z in
  let r := refreshZone h z0 in
  (zone r,
   ([Zone (SetCapabilityValue "adaptive_mode" (VString (_mode z0)));
     Zone (SetCapabilityValue "light_temperature" (VNumber (_currentTemperature z0)));
     Zone (SetCapabilityValue "dim" (VNumber (_currentBrightness z0)));
     RegisterCapabilityListener "adaptive_mode";
     RegisterCapabilityListener "light_temperature";
     RegisterCapabilityListener "dim";
     LogInitialized]
    ++ map Zone (trace r))%list).

(** nothing stored: a zone that has just been added *)
Definition nothing_stored : Stored := mkStored None None None (fun _ => None).

(** ** The recompute path in binary64

    The definitions above read the arithmetic over exact rationals, which is
    all the mode machine, the change detection and the frame properties
    depend on.  The values [updateFromPercentage] computes depend on the
    arithmetic itself, so the recompute path and the two places that load
    the configuration are given again here over IEEE-754 binary64, the
    arithmetic of a JavaScript number: round to nearest, ties to even, with
    NaN, the infinities and the two zeros. *)
Module Binary64.

Definition prec : Z := 53.
Definition emax : Z := 1024.

Definition number := spec_float.

Definition add : number -> number -> number := SFadd prec emax.
Definition sub : number -> number -> number := SFsub prec emax.
Definition mul : number -> number -> number := SFmul prec emax.
Definition div : number -> number -> number := SFdiv prec emax.

(** an integer, rounded to the nearest number *)
Definition of_Z (n : Z) : number := binary_normalize prec emax n 0 false.

(** the decimal literal [n / d]: the number nearest to the quotient *)
Definition lit (n : Z) (d : positive) : number := div (of_Z n) (of_Z (Zpos d)).

Definition zero : number := of_Z 0.
Definition one : number := of_Z 1.
Definition hundred : number := of_Z 100.

(** [x > y] and [x != y]: false, respectively true, when either is NaN *)
Definition gt (x y : number) : bool := SFltb y x.
Definition neq (x y : number) : bool := negb (SFeqb x y).

(** [Math.round]: the integer nearest to [x], the larger one on a tie;
    NaN, the infinities and the zeros are returned as they are, and a
    result of zero takes the sign of [x] *)
Definition Math_round (x : number) : number :=
  match x with
  | S754_finite s m e =>
      if (0 <=? e)%Z then x
      else
        let n := ((2 * cond_Zopp s (Zpos m) + 2 ^ (- e)) / 2 ^ (1 - e))%Z in
        if (n =? 0)%Z then S754_zero s else of_Z n
  | _ => x
  end.

Record CircadianZone := mkZone {
  _mode : string;
  _sunsetTemp : number;
  _noonTemp : number;
  _minBrightness : number;
  _maxBrightness : number;
  _nightTemperature : number;
  _nightBrightness : number;
  _currentBrightness : number;
  _currentTemperature : number
}.

(** the field initialisers of the class *)
Definition initial : CircadianZone :=
  {| _mode := "adaptive";
     _sunsetTemp := lit 100 100;
     _noonTemp := lit 40 100;
     _minBrightness := lit 10 100;
     _maxBrightness := lit 100 100;
     _nightTemperature := lit 100 100;
     _nightBrightness := lit 10 100;
     _currentBrightness := lit 100 100;
     _currentTemperature := lit 40 100 |}.

Definition set_currentBrightness (v : number) (z : CircadianZone) : CircadianZone :=
  mkZone (_mode z) (_sunsetTemp z) (_noonTemp z) (_minBrightness z)
         (_maxBrightness z) (_nightTemperature z) (_nightBrightness z)
         v (_currentTemperature z).

Definition set_currentTemperature (v : number) (z : CircadianZone) : CircadianZone :=
  mkZone (_mode z) (_sunsetTemp z) (_noonTemp z) (_minBrightness z)
         (_maxBrightness z) (_nightTemperature z) (_nightBrightness z)
         (_currentBrightness z) v.

Record Settings := mkSettings {
  max_brightness : number;
  min_brightness : number;
  night_brightness : number;
  night_temp : number;
  sunset_temp : number;
  noon_temp : number
}.

(** the six assignments of [onSettings]: [setting / 100] *)
Definition set_config (s : Settings) (z : CircadianZone) : CircadianZone :=
  mkZone (_mode z)
         (div (sunset_temp s) hundred) (div (noon_temp s) hundred)
         (div (min_brightness s) hundred) (div (max_brightness s) hundred)
         (div (night_temp s) hundred) (div (night_brightness s) hundred)
         (_currentBrightness z) (_currentTemperature z).

(** what [onInit] stores for a setting that is present:
    [Math.round(setting) / 100] *)
Definition loaded_setting (setting : number) : number :=
  div (Math_round setting) hundred.

(** the six settings as [onInit] loads them when all are present *)
Definition load_config (s : Settings) (z : CircadianZone) : CircadianZone :=
  mkZone (_mode z)
         (loaded_setting (sunset_temp s)) (loaded_setting (noon_temp s))
         (loaded_setting (min_brightness s)) (loaded_setting (max_brightness s))
         (loaded_setting (night_temp s)) (loaded_setting (night_brightness s))
         (_currentBrightness z) (_currentTemperature z).

Record Host := mkHost {
  getPercentage : number;
  homey__ : string -> string
}.

Inductive value :=
| VString (s : string)
| VNumber (x : number).

Inductive message :=
| SettingsWereChanged (newSettings : Settings)
| UpdatingToNight (brightness temperature : number)
| AlreadyAtNightTargets
| NotInAdaptiveMode (mode : string)
| UpdatingFromPercentage (percentage : number)
| BrightnessUpdated (brightness lo hi : number)
| NoChangeInBrightness (brightness : number)
| TemperatureUpdated (temperature sunset noon : number)
| NoChangeInTemperature (temperature : number)
| TriggeringValuesChanged (temperature brightness : number).

Inductive effect :=
| SetCapabilityValue (capabilityId : string) (v : value)
| ValuesChangedFlow (brightness temperature : number)
| Log (m : message).

Definition M (A : Type) : Type :=
  Host -> CircadianZone -> A * CircadianZone * list effect.

Definition ret {A} (a : A) : M A := fun _ z => (a, z, []).

Definition bind {A B} (m : M A) (k : A -> M B) : M B :=
  fun h z =>
    let '(a, z1, t1) := m h z in
    let '(b, z2, t2) := k a h z1 in
    (b, z2, (t1 ++ t2)%list).

Declare Scope binary64_scope.
Notation "x <- m ;; k" := (bind m (fun x => k))
  (at level 61, m at next level, right associativity) : binary64_scope.
Notation "m ;; k" := (bind m (fun _ => k))
  (at level 61, right associativity) : binary64_scope.
Local Open Scope binary64_scope.

Definition self : M CircadianZone := fun _ z => (z, z, []).
Definition host : M Host := fun h z => (h, z, []).
Definition assign (f : CircadianZone -> CircadianZone) : M unit :=
  fun _ z => (tt, f z, []).
Definition perform (e : effect) : M unit := fun _ z => (tt, z, [e]).
Definition log (m : message) : M unit := perform (Log m).
Definition setCapabilityValue (capabilityId : string) (v : value) : M unit :=
  perform (SetCapabilityValue capabilityId v).
Definition when (b : bool) (m : M unit) : M unit := if b then m else ret tt.

Definition zone {A} (r : A * CircadianZone * list effect) : CircadianZone :=
  snd (fst r).
Definition trace {A} (r : A * CircadianZone * list effect) : list effect :=
  snd r.

Definition triggerValuesChangedFlow (brightness temperature : number) : M unit :=
  log (TriggeringValuesChanged temperature brightness) ;;
  perform (ValuesChangedFlow brightness temperature).

(** the two target values [updateFromPercentage] computes *)
Definition brightness_of (z : CircadianZone) (percentage : number) : number :=
  let brightnessDelta := sub (_maxBrightness z) (_minBrightness z) in
  div (Math_round
         (mul (if gt percentage zero
               then add (mul brightnessDelta percentage) (_minBrightness z)
               else _minBrightness z)
              hundred))
      hundred.

Definition temperature_of (z : CircadianZone) (percentage : number) : number :=
  let tempDelta := sub (_sunsetTemp z) (_noonTemp z) in
  let calculatedTemperature :=
    add (mul tempDelta (sub one percentage)) (_noonTemp z) in
  div (Math_round
         (mul (if gt percentage zero
               then calculatedTemperature
               else _sunsetTemp z)
              hundred))
      hundred.

Definition updateFromPercentage (percentage : number) : M unit :=
  z <- self ;;
  if negb (String.eqb (_mode z) "adaptive") then
    log (NotInAdaptiveMode (_mode z))
  else
    log (UpdatingFromPercentage percentage) ;;
    let brightness := brightness_of z percentage in
    valuesChanged1 <-
      (if neq brightness (_currentBrightness z) then
         assign (set_currentBrightness brightness) ;;
         setCapabilityValue "dim" (VNumber brightness) ;;
         log (BrightnessUpdated brightness (_minBrightness z) (_maxBrightness z)) ;;
         ret true
       else
         log (NoChangeInBrightness (_currentBrightness z)) ;;
         ret false) ;;
    let temperature := temperature_of z percentage in
    valuesChanged2 <-
      (if neq temperature (_currentTemperature z) then
         assign (set_currentTemperature temperature) ;;
         log (TemperatureUpdated temperature (_sunsetTemp z) (_noonTemp z)) ;;
         setCapabilityValue "light_temperature" (VNumber temperature) ;;
         log (TemperatureUpdated temperature (_sunsetTemp z) (_noonTemp z)) ;;
         ret true
       else
         log (NoChangeInTemperature (_currentTemperature z)) ;;
         ret valuesChanged1) ;;
    when valuesChanged2 (triggerValuesChangedFlow brightness temperature).

Definition updateFromNightMode : M unit :=
  z <- self ;;
  if neq (_currentBrightness z) (_nightBrightness z)
     || neq (_currentTemperature z) (_nightTemperature z) then
    log (UpdatingToNight (_nightBrightness z) (_nightTemperature z)) ;;
    assign (set_currentBrightness (_nightBrightness z)) ;;
    assign (set_currentTemperature (_nightTemperature z)) ;;
    setCapabilityValue "dim" (VNumber (_nightBrightness z)) ;;
    setCapabilityValue "light_temperature" (VNumber (_nightTemperature z)) ;;
    triggerValuesChangedFlow (_nightBrightness z) (_nightTemperature z)
  else
    log AlreadyAtNightTargets.

Definition refreshZone : M unit :=
  z <- self ;;
  if String.eqb (_mode z) "adaptive" then
    h <- host ;;
    updateFromPercentage (getPercentage h)
  else if String.eqb (_mode z) "night" then
    updateFromNightMode
  else
    ret tt.

Definition onSettings (newSettings : Settings) : M (option string) :=
  if negb (gt (sunset_temp newSettings) (noon_temp newSettings)) then
    h <- host ;;
    ret (Some (homey__ h "temperature_error"))
  else
    log (SettingsWereChanged newSettings) ;;
    assign (set_config newSettings) ;;
    refreshZone ;;
    ret None.

(** a test host: the driver is at [pct], messages are not translated *)
Definition host_at (pct : number) : Host := mkHost pct (fun key => key).

(** The formulas as the specification writes them, with
    [round2(x) = round(x * 100) / 100]. *)
Definition spec_round2 (x : number) : number :=
  div (Math_round (mul x hundred)) hundred.

Definition spec_brightness (minBrightness maxBrightness pct : number) : number :=
  spec_round2 (if SFltb zero pct
               then add minBrightness (mul (sub maxBrightness minBrightness) pct)
               else minBrightness).

Definition spec_temperature (noonTemperature sunsetTemperature pct : number)
    : number :=
  spec_round2 (if SFltb zero pct
               then add noonTemperature
                      (mul (sub sunsetTemperature noonTemperature) (sub one pct))
               else sunsetTemperature).

(** a field holds [v] after an update that assigns [v] unless the value
    held already compares equal to it: it is [v], or a number equal to
    [v] (the other zero) *)
Definition holds (field v : number) : Prop :=
  field = v \/ SFeqb v field = true.

End Binary64.

(** ** Proof steps *)

(** expose what a computation does to the zone and the trace *)
Ltac unfold_run :=
  unfold when, triggerValuesChangedFlow, setCapabilityValue, log, perform,
    assign, host, self, bind, ret, result, zone, trace.

(** equality of two closed numbers, by evaluation *)
Ltac qc_eq := apply Qc_is_canon; vm_compute; reflexivity.

(** ** Numbers: comparison and rounding *)

Lemma neq_true (x y : num) : neq x y = true <-> x <> y.
Proof.
  unfold neq. rewrite negb_true_iff, <- not_true_iff_false, Qeq_bool_iff.
  split; intros H E; apply H.
  - now rewrite E.
  - now apply Qc_is_canon.
Qed.

Lemma neq_false (x y : num) : neq x y = false <-> x = y.
Proof.
  unfold neq. rewrite negb_false_iff, Qeq_bool_iff. split.
  - apply Qc_is_canon.
  - intros ->. reflexivity.
Qed.

Lemma neq_refl (x : num) : neq x x = false.
Proof. now apply neq_false. Qed.

Lemma neq_sym (x y : num) : neq x y = neq y x.
Proof.
  destruct (neq y x) eqn:E.
  - apply neq_true. apply neq_true in E. congruence.
  - apply neq_false. apply neq_false in E. congruence.
Qed.

Lemma gt_true (x y : num) : gt x y = true <-> y < x.
Proof.
  unfold gt. rewrite negb_true_iff, <- not_true_iff_false, Qle_bool_iff.
  split.
  - apply Qnot_le_lt.
  - apply Qlt_not_le.
Qed.

Lemma gt_false (x y : num) : gt x y = false <-> x <= y.
Proof. unfold gt. rewrite negb_false_iff. apply Qle_bool_iff. Qed.

Lemma ge_true (x y : num) : ge x y = true <-> y <= x.
Proof. unfold ge. apply Qle_bool_iff. Qed.

Lemma ge_false (x y : num) : ge x y = false <-> x < y.
Proof.
  unfold ge. rewrite <- not_true_iff_false, Qle_bool_iff. split.
  - apply Qnot_le_lt.
  - apply Qlt_not_le.
Qed.

Lemma ge_minus_one : ge minus_one 0 = false.
Proof. reflexivity. Qed.

Lemma hundred_pos : 0 < hundred.
Proof. reflexivity. Qed.

Lemma inv_hundred_pos : 0 < / hundred.
Proof. reflexivity. Qed.

Lemma hundred_neq_0 : hundred <> 0.
Proof. discriminate. Qed.


Lemma div_hundred_le (x y : num) : x <= y -> x / hundred <= y / hundred.
Proof. intros H. apply Qcmult_le_compat_r; [exact H | discriminate]. Qed.

Lemma div_hundred_lt (x y : num) : x < y <-> x / hundred < y / hundred.
Proof.
  split; intros H.
  - apply Qcmult_lt_compat_r; [reflexivity | exact H].
  - apply Qcnot_le_lt. intros L. apply div_hundred_le in L.
    exact (Qcle_not_lt _ _ L H).
Qed.

Lemma div_times_hundred (x : num) : x / hundred * hundred = x.
Proof. field. exact hundred_neq_0. Qed.


(** [Math.round] leaves integers alone *)
Lemma Math_round_integer (n : Z) :
  Math_round (Q2Qc (inject_Z n)) = Q2Qc (inject_Z n).
Proof.
  unfold Math_round. f_equal. f_equal.
  assert (E : (Q2Qc (inject_Z n) + (1 # 2) == (2 * n + 1 # 2))%Q).
  { cbn [this Q2Qc]. rewrite Qred_correct.
    unfold Qeq, Qplus, inject_Z. cbn [Qnum Qden]. lia. }
  rewrite E. unfold Qfloor.
  change (Z.pos 2) with 2%Z.
  rewrite Z.add_comm, Z.mul_comm, Z.div_add by lia.
  reflexivity.
Qed.

Lemma Math_round_idem (x : num) : Math_round (Math_round x) = Math_round x.
Proof. unfold Math_round at 2 3. apply Math_round_integer. Qed.


(** a whole number of hundredths is its own rounding: the values
    [Math.round(setting) / 100] that initialisation stores are of this form,
    and so is every value [round2] returns *)
Lemma round2_hundredths (x : num) :
  round2 (Math_round x / hundred) = Math_round x / hundred.
Proof.
  unfold round2. now rewrite div_times_hundred, Math_round_idem.
Qed.

Lemma round2_idem (x : num) : round2 (round2 x) = round2 x.
Proof. unfold round2 at 2 3. apply round2_hundredths. Qed.

(** ** Field updates *)

Lemma set_currentBrightness_same (z : CircadianZone) :
  set_currentBrightness (_currentBrightness z) z = z.
Proof. now destruct z. Qed.

Lemma set_currentTemperature_same (z : CircadianZone) :
  set_currentTemperature (_currentTemperature z) z = z.
Proof. now destruct z. Qed.

Lemma set_mode_same (z : CircadianZone) : set_mode (_mode z) z = z.
Proof. now destruct z. Qed.

(** the targets depend on the configuration only *)
Lemma brightness_of_config (z z' : CircadianZone) (pct : num) :
  _minBrightness z' = _minBrightness z ->
  _maxBrightness z' = _maxBrightness z ->
  brightness_of z' pct = brightness_of z pct.
Proof. unfold brightness_of. now intros -> ->. Qed.

Lemma temperature_of_config (z z' : CircadianZone) (pct : num) :
  _sunsetTemp z' = _sunsetTemp z ->
  _noonTemp z' = _noonTemp z ->
  temperature_of z' pct = temperature_of z pct.
Proof. unfold temperature_of. now intros -> ->. Qed.

(** ** What each method does *)

Lemma updateFromPercentage_not_adaptive (h : Host) (z : CircadianZone) (pct : num) :
  _mode z <> "adaptive" ->
  updateFromPercentage pct h z = (tt, z, [Log (NotInAdaptiveMode (_mode z))]).
Proof.
  intros H. apply String.eqb_neq in H.
  unfold updateFromPercentage. unfold_run. now rewrite H.
Qed.

Lemma updateFromPercentage_adaptive (h : Host) (z : CircadianZone) (pct : num) :
  _mode z = "adaptive" ->
  let b := brightness_of z pct in
  let t := temperature_of z pct in
  let r := updateFromPercentage pct h z in
  zone r = set_currentTemperature t (set_currentBrightness b z)
  /\ notifications (trace r) =
       (if neq b (_currentBrightness z) || neq t (_currentTemperature z)
        then [(b, t)] else [])
  /\ persisted (trace r) =
       ((if neq b (_currentBrightness z) then [("dim", VNumber b)] else [])
        ++ (if neq t (_currentTemperature z)
            then [("light_temperature", VNumber t)] else []))%list.
Proof.
  intros H b t r. apply String.eqb_eq in H.
  subst r. unfold updateFromPercentage. unfold_run. rewrite H. cbn [negb].
  fold b t.
  destruct (neq b (_currentBrightness z)) eqn:Eb;
    destruct (neq t (_currentTemperature z)) eqn:Et; cbn;
    try apply neq_false in Eb; try apply neq_false in Et;
    repeat split; try reflexivity;
    clearbody b t; destruct z; cbn in *; subst; reflexivity.
Qed.

Lemma updateFromPercentage_mode_config (h : Host) (z : CircadianZone) (pct : num) :
  let r := updateFromPercentage pct h z in
  _mode (zone r) = _mode z /\ config (zone r) = config z.
Proof.
  intros r. destruct (string_dec (_mode z) "adaptive") as [E|E].
  - destruct (updateFromPercentage_adaptive h z pct E) as (Hz & _).
    subst r. rewrite Hz. now split.
  - subst r. rewrite (updateFromPercentage_not_adaptive h z pct E). now split.
Qed.

Lemma updateFromNightMode_run (h : Host) (z : CircadianZone) :
  let b := _nightBrightness z in
  let t := _nightTemperature z in
  let r := updateFromNightMode h z in
  zone r = set_currentTemperature t (set_currentBrightness b z)
  /\ notifications (trace r) =
       (if neq (_currentBrightness z) b || neq (_currentTemperature z) t
        then [(b, t)] else [])
  /\ persisted (trace r) =
       (if neq (_currentBrightness z) b || neq (_currentTemperature z) t
        then [("dim", VNumber b); ("light_temperature", VNumber t)] else []).
Proof.
  intros b t r. subst r b t. unfold updateFromNightMode. unfold_run.
  destruct (neq (_currentBrightness z) (_nightBrightness z)) eqn:Eb;
    destruct (neq (_currentTemperature z) (_nightTemperature z)) eqn:Et; cbn;
    repeat split; try reflexivity.
  apply neq_false in Eb, Et. rewrite <- Eb, <- Et. now destruct z.
Qed.

Lemma updateFromNightMode_mode_config (h : Host) (z : CircadianZone) :
  let r := updateFromNightMode h z in
  _mode (zone r) = _mode z /\ config (zone r) = config z.
Proof.
  intros r. destruct (updateFromNightMode_run h z) as (Hz & _).
  subst r. rewrite Hz. now split.
Qed.

Lemma refreshZone_adaptive (h : Host) (z : CircadianZone) :
  _mode z = "adaptive" ->
  refreshZone h z = updateFromPercentage (getPercentage h) h z.
Proof.
  intros H. apply String.eqb_eq in H.
  unfold refreshZone. unfold_run. rewrite H.
  now destruct (updateFromPercentage (getPercentage h) h z) as [[[] ?] ?].
Qed.

Lemma refreshZone_night (h : Host) (z : CircadianZone) :
  _mode z = "night" ->
  refreshZone h z = updateFromNightMode h z.
Proof.
  intros H.
  assert (Ea : String.eqb (_mode z) "adaptive" = false) by now rewrite H.
  assert (En : String.eqb (_mode z) "night" = true) by now rewrite H.
  unfold refreshZone. unfold_run. rewrite Ea, En.
  now destruct (updateFromNightMode h z) as [[[] ?] ?].
Qed.

Lemma refreshZone_other (h : Host) (z : CircadianZone) :
  _mode z <> "adaptive" -> _mode z <> "night" ->
  refreshZone h z = (tt, z, []).
Proof.
  intros Ha Hn. apply String.eqb_neq in Ha, Hn.
  unfold refreshZone. unfold_run. now rewrite Ha, Hn.
Qed.

Lemma refreshZone_mode_config (h : Host) (z : CircadianZone) :
  let r := refreshZone h z in
  _mode (zone r) = _mode z /\ config (zone r) = config z.
Proof.
  intros r. subst r.
  destruct (string_dec (_mode z) "adaptive") as [Ea|Ea].
  - rewrite (refreshZone_adaptive h z Ea). apply updateFromPercentage_mode_config.
  - destruct (string_dec (_mode z) "night") as [En|En].
    + rewrite (refreshZone_night h z En). apply updateFromNightMode_mode_config.
    + rewrite (refreshZone_other h z Ea En). now split.
Qed.

Lemma setMode_same (h : Host) (z : CircadianZone) :
  setMode (_mode z) h z = (tt, z, [Log ModeNotChanged]).
Proof.
  unfold setMode. unfold_run. now rewrite String.eqb_refl.
Qed.

Lemma setMode_refresh (h : Host) (z : CircadianZone) (s : string) :
  s <> _mode z -> s = "adaptive" \/ s = "night" ->
  setMode s h z =
  (tt, zone (refreshZone h (set_mode s z)),
   SetCapabilityValue "adaptive_mode" (VString s)
     :: Log TriggeringZoneUpdate :: trace (refreshZone h (set_mode s z))).
Proof.
  intros Hs Hr.
  assert (E : String.eqb (_mode z) s = false)
    by (apply String.eqb_neq; congruence).
  assert (R : String.eqb s "adaptive" || String.eqb s "night" = true)
    by (destruct Hr; subst s; reflexivity).
  unfold setMode. unfold_run. rewrite E. cbn [negb]. rewrite R.
  now destruct (refreshZone h (set_mode s z)) as [[[] ?] ?].
Qed.

Lemma setMode_no_refresh (h : Host) (z : CircadianZone) (s : string) :
  s <> _mode z -> s <> "adaptive" -> s <> "night" ->
  setMode s h z =
  (tt, set_mode s z,
   [SetCapabilityValue "adaptive_mode" (VString s); Log (NoChangesNeeded s)]).
Proof.
  intros Hs Ha Hn.
  assert (E : String.eqb (_mode z) s = false)
    by (apply String.eqb_neq; congruence).
  apply String.eqb_neq in Ha, Hn.
  unfold setMode. unfold_run. now rewrite E, Ha, Hn.
Qed.

Lemma override_run (h : Host) (z : CircadianZone) (b t : num) :
  let c1 := ge b 0 && neq (_currentBrightness z) b in
  let c2 := ge t 0 && neq (_currentTemperature z) t in
  let z1 := if c1 then set_currentBrightness b z else z in
  let z2 := if c2 then set_currentTemperature t z1 else z1 in
  overrideCurrentBrightnessTemperature b t h z =
  if c1 || c2 then
    (tt, set_mode "manual" z2,
     ((if String.eqb (_mode z) "manual" then []
       else [SetCapabilityValue "adaptive_mode" (VString "manual");
             Log (NoChangesNeeded "manual")])
      ++ [Log (TriggeringValuesChanged (_currentTemperature z2) (_currentBrightness z2));
          ValuesChangedFlow (_currentBrightness z2) (_currentTemperature z2)])%list)
  else (tt, z, []).
Proof.
  intros c1 c2 z1 z2. subst z2 z1.
  unfold overrideCurrentBrightnessTemperature. unfold_run.
  fold c1 c2. clearbody c1 c2.
  destruct c1, c2; cbn [orb andb];
    cbn [_mode set_currentBrightness set_currentTemperature];
    unfold setMode; unfold_run;
    cbn [_mode set_currentBrightness set_currentTemperature];
    destruct (String.eqb (_mode z) "manual") eqn:Em; cbn;
    rewrite ?Em; cbn; try reflexivity;
    apply String.eqb_eq in Em; destruct z; cbn in *; now subst.
Qed.

Lemma orb_neq_values (z : CircadianZone) (b t : num) :
  neq b (_currentBrightness z) || neq t (_currentTemperature z) = true
  <-> (b, t) <> values z.
Proof.
  unfold values. rewrite orb_true_iff, !neq_true. split.
  - intros [H|H] E; apply H; congruence.
  - intros H.
    destruct (Qc_eq_dec b (_currentBrightness z)) as [Eb|Eb]; [|now left].
    destruct (Qc_eq_dec t (_currentTemperature z)) as [Et|Et]; [|now right].
    exfalso. apply H. congruence.
Qed.

(** ** The specification's claims *)

Lemma binary64_add_comm (x y : Binary64.number) :
  Binary64.add x y = Binary64.add y x.
Proof.
  unfold Binary64.add.
  destruct x as [sx|sx| |sx mx ex], y as [sy|sy| |sy my ey];
    try destruct sx; try destruct sy; try reflexivity.
  all: unfold SFadd; rewrite (Z.min_comm ex ey); f_equal; apply Z.add_comm.
Qed.

Lemma binary64_brightness_of_spec (z : Binary64.CircadianZone) (pct : Binary64.number) :
  Binary64.brightness_of z pct =
  Binary64.spec_brightness (Binary64._minBrightness z) (Binary64._maxBrightness z) pct.
Proof.
  unfold Binary64.brightness_of, Binary64.spec_brightness, Binary64.spec_round2,
    Binary64.gt.
  destruct (SFltb Binary64.zero pct); [|reflexivity].
  now rewrite binary64_add_comm.
Qed.

Lemma binary64_temperature_of_spec (z : Binary64.CircadianZone) (pct : Binary64.number) :
  Binary64.temperature_of z pct =
  Binary64.spec_temperature (Binary64._noonTemp z) (Binary64._sunsetTemp z) pct.
Proof.
  unfold Binary64.temperature_of, Binary64.spec_temperature, Binary64.spec_round2,
    Binary64.gt.
  destruct (SFltb Binary64.zero pct); [|reflexivity].
  now rewrite binary64_add_comm.
Qed.

Lemma binary64_updateFromPercentage_adaptive
    (h : Binary64.Host) (z : Binary64.CircadianZone) (pct : Binary64.number) :
  Binary64._mode z = "adaptive" ->
  let b := Binary64.brightness_of z pct in
  let t := Binary64.temperature_of z pct in
  let z' := Binary64.zone (Binary64.updateFromPercentage pct h z) in
  Binary64._currentBrightness z' =
    (if Binary64.neq b (Binary64._currentBrightness z)
     then b else Binary64._currentBrightness z)
  /\ Binary64._currentTemperature z' =
       (if Binary64.neq t (Binary64._currentTemperature z)
        then t else Binary64._currentTemperature z).
Proof.
  intros Hm b t z'. apply String.eqb_eq in Hm.
  subst z'. unfold Binary64.updateFromPercentage.
  unfold Binary64.when, Binary64.triggerValuesChangedFlow,
    Binary64.setCapabilityValue, Binary64.log, Binary64.perform,
    Binary64.assign, Binary64.self, Binary64.bind, Binary64.ret, Binary64.zone.
  rewrite Hm. cbn [negb]. fold b t.
  destruct (Binary64.neq b (Binary64._currentBrightness z));
    destruct (Binary64.neq t (Binary64._currentTemperature z)); cbn; now split.
Qed.

Lemma binary64_holds_after (held v : Binary64.number) :
  Binary64.holds (if Binary64.neq v held then v else held) v
  /\ (SFeqb v held = false -> (if Binary64.neq v held then v else held) = v).
Proof.
  unfold Binary64.holds, Binary64.neq.
  destruct (SFeqb v held) eqn:E; cbn [negb]; split; auto. discriminate.
Qed.

Lemma binary64_holds_equal (field v : Binary64.number) :
  Binary64.holds field v -> SFeqb v v = true -> SFeqb v field = true.
Proof. intros [-> | H] E; [exact E | exact H]. Qed.

(** C1.  Over binary64: in adaptive mode [updateFromPercentage pct] leaves
    in [_currentBrightness] the number
    [round2 (pct > 0 ? min + (max - min) * pct : min)] and in
    [_currentTemperature] the number
    [round2 (pct > 0 ? noon + (sunset - noon) * (1 - pct) : sunset)], with
    [round2 x = round (x * 100) / 100]: the field is assigned that number
    unless the value it held compares equal to it already.  With min = 0.10,
    max = 1.00, noon = 0.40 and sunset = 1.00 the percentages 0, 0.5 and 1
    leave values equal to (0.10, 1.00), (0.55, 0.70) and (1.00, 0.40).  The
    rounding is that of the code: with min = 0.05 and max = 0.95 the
    percentage 0.25 leaves 0.27, the interpolated value being held as
    27.499999999999996 hundredths. *)
Theorem binary64_updateFromPercentage_targets
    (h : Binary64.Host) (z : Binary64.CircadianZone) :
  Binary64._mode z = "adaptive" ->
  let after p := Binary64.zone (Binary64.updateFromPercentage p h z) in
  let brightness p :=
    Binary64.spec_brightness (Binary64._minBrightness z) (Binary64._maxBrightness z) p in
  let temperature p :=
    Binary64.spec_temperature (Binary64._noonTemp z) (Binary64._sunsetTemp z) p in
  (forall pct,
     Binary64.holds (Binary64._currentBrightness (after pct)) (brightness pct)
     /\ Binary64.holds (Binary64._currentTemperature (after pct)) (temperature pct)
     /\ (SFeqb (brightness pct) (Binary64._currentBrightness z) = false ->
         Binary64._currentBrightness (after pct) = brightness pct)
     /\ (SFeqb (temperature pct) (Binary64._currentTemperature z) = false ->
         Binary64._currentTemperature (after pct) = temperature pct))
  /\ (Binary64._minBrightness z = Binary64.lit 10 100 ->
      Binary64._maxBrightness z = Binary64.lit 100 100 ->
      Binary64._noonTemp z = Binary64.lit 40 100 ->
      Binary64._sunsetTemp z = Binary64.lit 100 100 ->
      (SFeqb (Binary64.lit 10 100)
         (Binary64._currentBrightness (after Binary64.zero)) = true
       /\ SFeqb (Binary64.lit 100 100)
            (Binary64._currentTemperature (after Binary64.zero)) = true)
      /\ (SFeqb (Binary64.lit 55 100)
            (Binary64._currentBrightness (after (Binary64.lit 5 10))) = true
          /\ SFeqb (Binary64.lit 70 100)
               (Binary64._currentTemperature (after (Binary64.lit 5 10))) = true)
      /\ (SFeqb (Binary64.lit 100 100)
            (Binary64._currentBrightness (after Binary64.one)) = true
          /\ SFeqb (Binary64.lit 40 100)
               (Binary64._currentTemperature (after Binary64.one)) = true))
  /\ (Binary64._minBrightness z = Binary64.lit 5 100 ->
      Binary64._maxBrightness z = Binary64.lit 95 100 ->
      SFeqb (Binary64.lit 27 100)
        (Binary64._currentBrightness (after (Binary64.lit 25 100))) = true).
Proof.
  intros Hm after brightness temperature.
  assert (G : forall pct,
     Binary64.holds (Binary64._currentBrightness (after pct)) (brightness pct)
     /\ Binary64.holds (Binary64._currentTemperature (after pct)) (temperature pct)
     /\ (SFeqb (brightness pct) (Binary64._currentBrightness z) = false ->
         Binary64._currentBrightness (after pct) = brightness pct)
     /\ (SFeqb (temperature pct) (Binary64._currentTemperature z) = false ->
         Binary64._currentTemperature (after pct) = temperature pct)).
  { intros p.
    destruct (binary64_updateFromPercentage_adaptive h z p Hm) as (Hb & Ht).
    fold (after p) in Hb, Ht.
    rewrite binary64_brightness_of_spec in Hb.
    rewrite binary64_temperature_of_spec in Ht.
    fold (brightness p) in Hb. fold (temperature p) in Ht.
    rewrite Hb, Ht.
    destruct (binary64_holds_after (Binary64._currentBrightness z) (brightness p)).
    destruct (binary64_holds_after (Binary64._currentTemperature z) (temperature p)).
    now repeat split. }
  split; [exact G|]. split.
  2: { intros Hmin Hmax. apply binary64_holds_equal; [|reflexivity].
       replace (Binary64.lit 27 100) with (brightness (Binary64.lit 25 100));
         [apply G|].
       subst brightness. cbv beta. rewrite Hmin, Hmax. vm_compute. reflexivity. }
  intros Hmin Hmax Hnoon Hsunset.
  assert (B : forall p v,
            Binary64.spec_brightness (Binary64.lit 10 100) (Binary64.lit 100 100) p = v ->
            SFeqb v v = true ->
            SFeqb v (Binary64._currentBrightness (after p)) = true).
  { intros p v E Ev. apply binary64_holds_equal; [|exact Ev].
    rewrite <- E, <- Hmin, <- Hmax. apply G. }
  assert (T : forall p v,
            Binary64.spec_temperature (Binary64.lit 40 100) (Binary64.lit 100 100) p = v ->
            SFeqb v v = true ->
            SFeqb v (Binary64._currentTemperature (after p)) = true).
  { intros p v E Ev. apply binary64_holds_equal; [|exact Ev].
    rewrite <- E, <- Hnoon, <- Hsunset. apply G. }
  repeat split; first [apply B | apply T]; vm_compute; reflexivity.
Qed.

Lemma binary64_updateFromPercentage_targets_witness :
  let tie := Binary64.mkZone "adaptive"
               (Binary64.lit 100 100) (Binary64.lit 40 100)
               (Binary64.lit 5 100) (Binary64.lit 95 100)
               (Binary64.lit 100 100) (Binary64.lit 10 100)
               (Binary64.lit 100 100) (Binary64.lit 40 100) in
  let h := Binary64.host_at Binary64.zero in
  Binary64._currentBrightness
    (Binary64.zone (Binary64.updateFromPercentage (Binary64.lit 5 10) h Binary64.initial))
  = Binary64.lit 55 100
  /\ Binary64._currentBrightness
       (Binary64.zone (Binary64.updateFromPercentage (Binary64.lit 25 100) h tie))
     = Binary64.lit 27 100.
Proof.
  intros tie h. split.
  - destruct (binary64_updateFromPercentage_targets h Binary64.initial eq_refl)
      as (G & _).
    destruct (G (Binary64.lit 5 10)) as (_ & _ & Hb & _).
    exact (Hb eq_refl).
  - destruct (binary64_updateFromPercentage_targets h tie eq_refl) as (G & _).
    destruct (G (Binary64.lit 25 100)) as (_ & _ & Hb & _).
    exact (Hb eq_refl).
Defined.

(** C5.  Outside adaptive mode [updateFromPercentage pct] only logs: the
    zone is returned as it was, no capability is written and no
    values-changed notification is sent. *)
Theorem updateFromPercentage_guard (h : Host) (z : CircadianZone) (pct : num) :
  _mode z <> "adaptive" ->
  let r := updateFromPercentage pct h z in
  zone r = z
  /\ persisted (trace r) = []
  /\ notifications (trace r) = []
  /\ trace r = [Log (NotInAdaptiveMode (_mode z))].
Proof.
  intros H r. subst r.
  rewrite (updateFromPercentage_not_adaptive h z pct H). now repeat split.
Qed.

Lemma updateFromPercentage_guard_witness :
  let z := set_mode "night" initial in
  let r := updateFromPercentage (lit 5 10) (host_at 0) z in
  zone r = z /\ persisted (trace r) = [] /\ notifications (trace r) = []
  /\ trace r = [Log (NotInAdaptiveMode "night")].
Proof.
  apply (updateFromPercentage_guard (host_at 0) (set_mode "night" initial)
           (lit 5 10)).
  discriminate.
Defined.

(** C7.  In adaptive mode, a second [updateFromPercentage pct] right after
    the first returns the zone as the first left it, writes no capability and
    sends no values-changed notification. *)
Theorem updateFromPercentage_twice (h h' : Host) (z : CircadianZone) (pct : num) :
  _mode z = "adaptive" ->
  let r1 := updateFromPercentage pct h z in
  let r2 := updateFromPercentage pct h' (zone r1) in
  zone r2 = zone r1
  /\ persisted (trace r2) = []
  /\ notifications (trace r2) = [].
Proof.
  intros Hm r1 r2.
  destruct (updateFromPercentage_adaptive h z pct Hm) as (Hz & _).
  fold r1 in Hz. subst r2. revert Hz. generalize (zone r1). clear r1.
  intros z1 Hz.
  assert (Hm1 : _mode z1 = "adaptive") by (rewrite Hz; exact Hm).
  assert (Eb : brightness_of z1 pct = _currentBrightness z1).
  { transitivity (brightness_of z pct).
    - apply brightness_of_config; now rewrite Hz.
    - now rewrite Hz. }
  assert (Et : temperature_of z1 pct = _currentTemperature z1).
  { transitivity (temperature_of z pct).
    - apply temperature_of_config; now rewrite Hz.
    - now rewrite Hz. }
  destruct (updateFromPercentage_adaptive h' z1 pct Hm1) as (Hz2 & Hn2 & Hp2).
  rewrite Eb, Et in Hz2, Hn2, Hp2. rewrite !neq_refl in Hn2, Hp2.
  rewrite set_currentBrightness_same, set_currentTemperature_same in Hz2.
  now repeat split.
Qed.

Lemma updateFromPercentage_twice_witness :
  let r1 := updateFromPercentage (lit 5 10) (host_at 0) initial in
  let r2 := updateFromPercentage (lit 5 10) (host_at 0) (zone r1) in
  zone r2 = zone r1 /\ persisted (trace r2) = [] /\ notifications (trace r2) = [].
Proof.
  apply (updateFromPercentage_twice (host_at 0) (host_at 0) initial (lit 5 10)).
  reflexivity.
Defined.

(** C9.  [setMode] with the mode the zone is already in only logs: the zone
    is returned as it was, the mode capability is not written, no recompute
    runs and no values-changed notification is sent. *)
Theorem setMode_current_mode (h : Host) (z : CircadianZone) :
  let r := setMode (_mode z) h z in
  zone r = z
  /\ persisted (trace r) = []
  /\ notifications (trace r) = []
  /\ trace r = [Log ModeNotChanged].
Proof.
  intros r. subst r. rewrite setMode_same. now repeat split.
Qed.

(** C10.  [setMode s] with [s] different from the current mode, whatever
    string [s] is: the mode becomes [s] and is written to the
    [adaptive_mode] capability first; [refreshZone] then runs on the zone
    with the new mode when [s] is "adaptive" or "night", and for every other
    string nothing follows but a log line. *)
Theorem setMode_any_string (h : Host) (z : CircadianZone) (s : string) :
  s <> _mode z ->
  let r := setMode s h z in
  let z1 := set_mode s z in
  _mode (zone r) = s
  /\ hd_error (persisted (trace r)) = Some ("adaptive_mode", VString s)
  /\ (s = "adaptive" \/ s = "night" ->
      zone r = zone (refreshZone h z1)
      /\ trace r = SetCapabilityValue "adaptive_mode" (VString s)
                     :: Log TriggeringZoneUpdate :: trace (refreshZone h z1))
  /\ (s <> "adaptive" -> s <> "night" ->
      zone r = z1
      /\ trace r = [SetCapabilityValue "adaptive_mode" (VString s);
                    Log (NoChangesNeeded s)]).
Proof.
  intros Hs r z1.
  destruct (string_dec s "adaptive") as [Ea|Ea];
    [|destruct (string_dec s "night") as [En|En]].
  1, 2: assert (Hr : s = "adaptive" \/ s = "night") by tauto;
        pose proof (setMode_refresh h z s Hs Hr) as E; fold r z1 in E;
        rewrite E; unfold zone at 1, trace at 1; cbn [fst snd];
        repeat split; try tauto;
        apply (refreshZone_mode_config h z1).
  pose proof (setMode_no_refresh h z s Hs Ea En) as E. fold r z1 in E.
  rewrite E. unfold zone, trace. cbn [fst snd]. repeat split; tauto.
Qed.

Lemma setMode_any_string_witness :
  let r := setMode "disco" (host_at 0) initial in
  _mode (zone r) = "disco"
  /\ trace r = [SetCapabilityValue "adaptive_mode" (VString "disco");
                Log (NoChangesNeeded "disco")].
Proof.
  assert (H : "disco" <> _mode initial) by discriminate.
  pose proof (setMode_any_string (host_at 0) initial "disco" H) as (Hm & _ & _ & Hn).
  split; [exact Hm|].
  apply Hn; discriminate.
Defined.

(** *** Notifications against changes *)

Lemma notifies_from_flag {A} (m : M A) (h : Host) (z : CircadianZone)
    (v : num * num) (c : bool) :
  values (zone (m h z)) = (if c then v else values z) ->
  notifications (trace (m h z)) = (if c then [v] else []) ->
  (c = true -> v <> values z) ->
  (notifications (trace (m h z)) <> [] <-> values (zone (m h z)) <> values z)
  /\ (notifications (trace (m h z)) = []
      \/ notifications (trace (m h z)) = [values (zone (m h z))]).
Proof.
  intros Hv Hn Hc. rewrite Hv, Hn. destruct c.
  - specialize (Hc eq_refl). repeat split; auto. discriminate.
  - split; [|now left]. split; intros H; now elim H.
Qed.

Lemma updateFromPercentage_notifies (pct : num) :
  notifies_iff_changed (updateFromPercentage pct).
Proof.
  intros h z r. subst r.
  destruct (string_dec (_mode z) "adaptive") as [E|E].
  - destruct (updateFromPercentage_adaptive h z pct E) as (Hz & Hn & _).
    set (b := brightness_of z pct) in *. set (t := temperature_of z pct) in *.
    apply (notifies_from_flag _ h z (b, t)
             (neq b (_currentBrightness z) || neq t (_currentTemperature z))).
    + rewrite Hz.
      destruct (neq b (_currentBrightness z)) eqn:Eb;
        destruct (neq t (_currentTemperature z)) eqn:Et; try reflexivity.
      apply neq_false in Eb, Et. unfold values. cbn. congruence.
    + exact Hn.
    + apply orb_neq_values.
  - rewrite (updateFromPercentage_not_adaptive h z pct E).
    apply (notifies_from_flag (fun _ _ => (tt, z, _)) h z (values z) false);
      [reflexivity | reflexivity | discriminate].
Qed.

Lemma updateFromNightMode_notifies : notifies_iff_changed updateFromNightMode.
Proof.
  intros h z r. subst r.
  destruct (updateFromNightMode_run h z) as (Hz & Hn & _).
  apply (notifies_from_flag _ h z (_nightBrightness z, _nightTemperature z)
           (neq (_currentBrightness z) (_nightBrightness z)
            || neq (_currentTemperature z) (_nightTemperature z))).
  - rewrite Hz.
    destruct (neq (_currentBrightness z) (_nightBrightness z)) eqn:Eb;
      destruct (neq (_currentTemperature z) (_nightTemperature z)) eqn:Et;
      try reflexivity.
    apply neq_false in Eb, Et. unfold values. cbn. congruence.
  - exact Hn.
  - rewrite (neq_sym (_currentBrightness z)), (neq_sym (_currentTemperature z)).
    apply orb_neq_values.
Qed.

Lemma refreshZone_notifies : notifies_iff_changed refreshZone.
Proof.
  intros h z r. subst r.
  destruct (string_dec (_mode z) "adaptive") as [Ea|Ea].
  - rewrite (refreshZone_adaptive h z Ea). apply updateFromPercentage_notifies.
  - destruct (string_dec (_mode z) "night") as [En|En].
    + rewrite (refreshZone_night h z En). apply updateFromNightMode_notifies.
    + rewrite (refreshZone_other h z Ea En).
      apply (notifies_from_flag (fun _ _ => (tt, z, _)) h z (values z) false);
        [reflexivity | reflexivity | discriminate].
Qed.

Lemma override_notifies (b t : num) :
  notifies_iff_changed (overrideCurrentBrightnessTemperature b t).
Proof.
  intros h z r. subst r.
  pose proof (override_run h z b t) as E. cbv zeta in E.
  set (c1 := ge b 0 && neq (_currentBrightness z) b) in *.
  set (c2 := ge t 0 && neq (_currentTemperature z) t) in *.
  apply (notifies_from_flag _ h z
           (if c1 then b else _currentBrightness z,
            if c2 then t else _currentTemperature z) (c1 || c2)).
  - rewrite E. destruct c1, c2; reflexivity.
  - rewrite E. destruct c1, c2; cbn [orb];
      unfold trace; cbn [snd];
      destruct (String.eqb (_mode z) "manual"); reflexivity.
  - unfold values. intros Hc Hv. injection Hv as Hb Ht.
    apply orb_true_iff in Hc. destruct Hc as [Hc|Hc]; rewrite Hc in *.
    + apply andb_true_iff in Hc. destruct Hc as [_ Hc].
      apply neq_true in Hc. congruence.
    + apply andb_true_iff in Hc. destruct Hc as [_ Hc].
      apply neq_true in Hc. congruence.
Qed.

Lemma notifies_transfer {A B}
    (r : A * CircadianZone * list effect) (r' : B * CircadianZone * list effect)
    (z z1 : CircadianZone) :
  values z1 = values z ->
  zone r' = zone r ->
  notifications (trace r') = notifications (trace r) ->
  (notifications (trace r) <> [] <-> values (zone r) <> values z1)
  /\ (notifications (trace r) = [] \/ notifications (trace r) = [values (zone r)]) ->
  (notifications (trace r') <> [] <-> values (zone r') <> values z)
  /\ (notifications (trace r') = [] \/ notifications (trace r') = [values (zone r')]).
Proof. now intros <- -> ->. Qed.

Lemma setMode_notifies (s : string) : notifies_iff_changed (setMode s).
Proof.
  intros h z r. subst r.
  destruct (string_dec s (_mode z)) as [E|E].
  - subst s. rewrite setMode_same.
    apply (notifies_from_flag (fun _ _ => (tt, z, _)) h z (values z) false);
      [reflexivity | reflexivity | discriminate].
  - destruct (string_dec s "adaptive") as [Ea|Ea];
      [|destruct (string_dec s "night") as [En|En]].
    1, 2: assert (Hr : s = "adaptive" \/ s = "night") by tauto;
          rewrite (setMode_refresh h z s E Hr);
          apply (notifies_transfer (refreshZone h (set_mode s z)) _ z (set_mode s z));
          [reflexivity | reflexivity | reflexivity | apply refreshZone_notifies].
    rewrite (setMode_no_refresh h z s E Ea En).
    apply (notifies_from_flag (fun _ _ => (tt, set_mode s z, _)) h z (values z) false);
      [reflexivity | reflexivity | discriminate].
Qed.

Lemma dim_listener_notifies (b : num) : notifies_iff_changed (dim_listener b).
Proof.
  intros h z r. subst r.
  apply (notifies_transfer
           (overrideCurrentBrightnessTemperature b minus_one h z) _ z z);
    [reflexivity | | | apply override_notifies];
    unfold dim_listener; unfold_run;
    now destruct (overrideCurrentBrightnessTemperature b minus_one h z)
      as [[[] ?] ?].
Qed.

Lemma light_temperature_listener_notifies (t : num) :
  notifies_iff_changed (light_temperature_listener t).
Proof.
  intros h z r. subst r.
  apply (notifies_transfer
           (overrideCurrentBrightnessTemperature minus_one t h z) _ z z);
    [reflexivity | | | apply override_notifies];
    unfold light_temperature_listener; unfold_run;
    now destruct (overrideCurrentBrightnessTemperature minus_one t h z)
      as [[[] ?] ?].
Qed.

(** C2, as stated, fails: the override compares the values as given, not
    rounded.  On a zone holding brightness 0.12 the [dim] listener with 0.123
    sends a notification, although neither value differs from the one held
    before once both are rounded to hundredths. *)
Lemma override_notifies_without_rounded_change :
  let z := set_currentBrightness (lit 12 100) initial in
  let r := dim_listener (lit 123 1000) (host_at 0) z in
  notifications (trace r) = [(lit 123 1000, lit 40 100)]
  /\ round2 (_currentBrightness (zone r)) = round2 (_currentBrightness z)
  /\ round2 (_currentTemperature (zone r)) = round2 (_currentTemperature z).
Proof.
  cbv zeta. split; [|split].
  - vm_compute. reflexivity.
  - qc_eq.
  - qc_eq.
Qed.

(** C2, as the code has it.  Each of [updateFromPercentage], [updateFromNightMode],
    [refreshZone] and the override (called directly or through the [dim] and
    [light_temperature] listeners), and [setMode] too, sends a values-changed
    notification if and only if [_currentBrightness] or [_currentTemperature],
    as stored, is different after the call from what it was before; it then
    sends exactly one, carrying the resulting values. *)
Theorem notification_iff_values_changed :
  (forall pct, notifies_iff_changed (updateFromPercentage pct))
  /\ notifies_iff_changed updateFromNightMode
  /\ notifies_iff_changed refreshZone
  /\ (forall b t, notifies_iff_changed (overrideCurrentBrightnessTemperature b t))
  /\ (forall b, notifies_iff_changed (dim_listener b))
  /\ (forall t, notifies_iff_changed (light_temperature_listener t))
  /\ (forall s, notifies_iff_changed (setMode s)).
Proof.
  repeat apply conj.
  - exact updateFromPercentage_notifies.
  - exact updateFromNightMode_notifies.
  - exact refreshZone_notifies.
  - exact override_notifies.
  - exact dim_listener_notifies.
  - exact light_temperature_listener_notifies.
  - exact setMode_notifies.
Qed.

(** *** The override *)

Lemma override_values (h : Host) (z : CircadianZone) (b t : num) :
  values (zone (overrideCurrentBrightnessTemperature b t h z)) =
  (if ge b 0 && neq (_currentBrightness z) b then b else _currentBrightness z,
   if ge t 0 && neq (_currentTemperature z) t then t else _currentTemperature z).
Proof.
  pose proof (override_run h z b t) as E. cbv zeta in E. rewrite E.
  destruct (ge b 0 && neq (_currentBrightness z) b),
           (ge t 0 && neq (_currentTemperature z) t); reflexivity.
Qed.

Lemma override_axis (c v : num) :
  0 <= v ->
  let v' := if ge v 0 && neq c v then v else c in
  v' = v /\ (v' <> c <-> v <> c) /\ (round2 v = v -> v' = round2 v).
Proof.
  intros Hv v'. apply ge_true in Hv.
  assert (E : v' = v).
  { subst v'. rewrite Hv. cbn [andb].
    destruct (neq c v) eqn:N; [reflexivity | now apply neq_false in N]. }
  rewrite E. repeat split; auto.
Qed.

(** C3, as the code has it.  The override stores a given value ([v >= 0])
    as it is, without rounding: afterwards the axis holds [v] itself, it has
    changed if and only if [v] differs from the value held before, and it
    holds [round2 v] only when [v] is already a whole number of hundredths. *)
Theorem override_stores_given (h : Host) (z : CircadianZone) (b t : num) :
  let z' := zone (overrideCurrentBrightnessTemperature b t h z) in
  (0 <= b ->
   _currentBrightness z' = b
   /\ (_currentBrightness z' <> _currentBrightness z <-> b <> _currentBrightness z)
   /\ (round2 b = b -> _currentBrightness z' = round2 b))
  /\ (0 <= t ->
      _currentTemperature z' = t
      /\ (_currentTemperature z' <> _currentTemperature z
          <-> t <> _currentTemperature z)
      /\ (round2 t = t -> _currentTemperature z' = round2 t)).
Proof.
  intros z'. pose proof (override_values h z b t) as E. fold z' in E.
  unfold values in E. injection E as Eb Et. rewrite Eb, Et.
  split; intros H.
  - exact (override_axis (_currentBrightness z) b H).
  - exact (override_axis (_currentTemperature z) t H).
Qed.

Lemma override_stores_given_witness :
  let z' := zone (overrideCurrentBrightnessTemperature
                    (lit 123 1000) (lit 5 10) (host_at 0) initial) in
  _currentBrightness z' = lit 123 1000 /\ _currentTemperature z' = lit 5 10.
Proof.
  pose proof (override_stores_given (host_at 0) initial (lit 123 1000) (lit 5 10))
    as (Hb & Ht).
  split.
  - apply Hb. discriminate.
  - apply Ht. discriminate.
Defined.

(** C3, as stated, fails: a brightness of 0.123 is stored as 0.123, not as
    [round2 0.123 = 0.12]; and on a zone whose brightness is 0.12 the same
    override changes the axis although [round2 0.123] equals the value held. *)
Lemma override_stores_unrounded :
  let v := lit 123 1000 in
  let z := set_currentBrightness (lit 12 100) initial in
  let z' := zone (overrideCurrentBrightnessTemperature v minus_one (host_at 0) z) in
  ge v 0 = true
  /\ round2 v = _currentBrightness z
  /\ _currentBrightness z' <> _currentBrightness z
  /\ _currentBrightness z' <> round2 v
  /\ round2 (_currentBrightness z') <> _currentBrightness z'.
Proof.
  cbv zeta. split; [reflexivity|]. split; [qc_eq|].
  repeat split; intros H;
    apply (f_equal (fun q : Qc => Qnum q)) in H; vm_compute in H; discriminate H.
Qed.

(** C8.  An override that gives a brightness ([b >= 0]) different from the
    current one and no temperature leaves the zone in manual mode with
    brightness [b] and the temperature it had, and sends exactly one
    values-changed notification, carrying [b] and that temperature; the
    [dim] listener is this call. *)
Theorem override_brightness_only (h : Host) (z : CircadianZone) (b : num) :
  0 <= b -> b <> _currentBrightness z ->
  let r := overrideCurrentBrightnessTemperature b minus_one h z in
  _mode (zone r) = "manual"
  /\ _currentTemperature (zone r) = _currentTemperature z
  /\ _currentBrightness (zone r) = b
  /\ notifications (trace r) = [(b, _currentTemperature z)]
  /\ zone (dim_listener b h z) = zone r
  /\ notifications (trace (dim_listener b h z)) = notifications (trace r).
Proof.
  intros Hb Hn r.
  assert (Er : r = overrideCurrentBrightnessTemperature b minus_one h z)
    by reflexivity.
  assert (El : dim_listener b h z =
               (tt, zone r, Log (DimOverrideTo b) :: trace r)).
  { unfold dim_listener. unfold_run. fold r. now destruct r as [[[] ?] ?]. }
  rewrite El. clear El.
  pose proof (override_run h z b minus_one) as E. cbv zeta in E.
  rewrite <- Er in E. clearbody r.
  apply ge_true in Hb. rewrite Hb, ge_minus_one in E.
  assert (N : neq (_currentBrightness z) b = true)
    by (apply neq_true; congruence).
  rewrite N in E. cbn [andb orb] in E. rewrite E.
  unfold zone, trace. cbn [fst snd].
  repeat split.
  destruct (String.eqb (_mode z) "manual"); reflexivity.
Qed.

Lemma override_brightness_only_witness :
  let r := overrideCurrentBrightnessTemperature (lit 5 10) minus_one
             (host_at 0) initial in
  _mode (zone r) = "manual"
  /\ _currentTemperature (zone r) = lit 40 100
  /\ notifications (trace r) = [(lit 5 10, lit 40 100)].
Proof.
  assert (Hb : 0 <= lit 5 10) by discriminate.
  assert (Hn : lit 5 10 <> _currentBrightness initial) by discriminate.
  pose proof (override_brightness_only (host_at 0) initial (lit 5 10) Hb Hn)
    as (Hm & Ht & _ & Hx & _).
  repeat split; assumption.
Defined.

(** *** Settings *)

Lemma onSettings_rejected (h : Host) (z : CircadianZone) (s : Settings) :
  gt (sunset_temp s) (noon_temp s) = false ->
  onSettings s h z = (Some (homey__ h "temperature_error"), z, []).
Proof.
  intros H. unfold onSettings. unfold_run. now rewrite H.
Qed.

Lemma onSettings_accepted (h : Host) (z : CircadianZone) (s : Settings) :
  gt (sunset_temp s) (noon_temp s) = true ->
  onSettings s h z =
  (None, zone (refreshZone h (set_config s z)),
   Log (SettingsWereChanged s) :: trace (refreshZone h (set_config s z))).
Proof.
  intros H. unfold onSettings. unfold_run. rewrite H. cbn [negb].
  destruct (refreshZone h (set_config s z)) as [[[] z1] t1].
  cbn. now rewrite app_nil_r.
Qed.

(** C4.  [onSettings] rejects the new settings exactly when the sunset
    temperature, as a fraction, is not strictly above the noon temperature:
    it then returns the [temperature_error] message and leaves the zone
    untouched, with no host call.  Otherwise it returns nothing, the six
    configured values become the six settings divided by 100, and
    [refreshZone] runs on the reconfigured zone whatever the mode. *)
Theorem onSettings_validation (h : Host) (z : CircadianZone) (s : Settings) :
  let r := onSettings s h z in
  let z1 := set_config s z in
  let ordered := noon_temp s / hundred < sunset_temp s / hundred in
  (result r <> None <-> ~ ordered)
  /\ (~ ordered -> r = (Some (homey__ h "temperature_error"), z, []))
  /\ (ordered ->
      result r = None
      /\ config (zone r) =
           (sunset_temp s / hundred, noon_temp s / hundred,
            min_brightness s / hundred, max_brightness s / hundred,
            night_temp s / hundred, night_brightness s / hundred)
      /\ zone r = zone (refreshZone h z1)
      /\ trace r = Log (SettingsWereChanged s) :: trace (refreshZone h z1)).
Proof.
  intros r z1 ordered.
  assert (Ho : ordered <-> gt (sunset_temp s) (noon_temp s) = true).
  { subst ordered. rewrite <- div_hundred_lt. symmetry. apply gt_true. }
  destruct (gt (sunset_temp s) (noon_temp s)) eqn:G.
  - pose proof (onSettings_accepted h z s G) as E. fold r z1 in E.
    destruct (refreshZone_mode_config h z1) as (_ & Hc).
    rewrite E. unfold result, zone, trace in *. cbn [fst snd].
    split; [|split].
    + split; [intros H; now elim H | intros H; elim H; now apply Ho].
    + intros H. elim H. now apply Ho.
    + intros _. repeat split. now rewrite Hc.
  - pose proof (onSettings_rejected h z s G) as E. fold r in E.
    rewrite E. unfold result. cbn [fst].
    assert (Hn : ~ ordered) by (rewrite Ho; discriminate).
    split; [|split].
    + split; [intros _; exact Hn | discriminate].
    + reflexivity.
    + intros H. now elim Hn.
Qed.

Lemma onSettings_validation_witness :
  let bad := mkSettings hundred (lit 10 1) (lit 10 1) hundred (lit 40 1) (lit 60 1) in
  let good := mkSettings hundred (lit 10 1) (lit 20 1) hundred (lit 90 1) (lit 30 1) in
  onSettings bad (host_at 0) initial = (Some "temperature_error", initial, [])
  /\ _sunsetTemp (zone (onSettings good (host_at 0) initial)) = lit 90 1 / hundred.
Proof.
  intros bad good. split.
  - apply (onSettings_validation (host_at 0) initial bad). discriminate.
  - assert (H : noon_temp good / hundred < sunset_temp good / hundred)
      by reflexivity.
    pose proof (onSettings_validation (host_at 0) initial good) as (_ & _ & Ha).
    destruct (Ha H) as (_ & Hc & _).
    exact (f_equal (fun c => fst (fst (fst (fst (fst c))))) Hc).
Defined.

(** *** Interpolation *)





Lemma temperature_of_0 (z : CircadianZone) :
  temperature_of z 0 = round2 (_sunsetTemp z).
Proof. reflexivity. Qed.


(** C6, at a failing input, over binary64.  [onSettings] stores
    [setting / 100] as it is, where [onInit] stores
    [Math.round(setting) / 100].  Settings with a minimum brightness of
    10.4 and a sunset temperature of 99.6 are accepted and leave
    min = 10.4 / 100 <= max = 1 and noon = 0.4 < sunset = 99.6 / 100, where
    [onInit] would leave min = 0.10 and sunset = 1.00.  On the zone [onSettings]
    leaves, the brightness target at percentage 0.001 is 0.10, below min,
    and the temperature target at percentage 0 is 1.00, not sunset; on the
    zone [onInit] would leave, both are as the claim says.  With noon 1.5
    and sunset 14.5 stored by [onSettings] the temperature target rises
    from 0.14 at percentage 0 to 0.15 at percentage 2^-60. *)
Theorem binary64_onSettings_fractional_setting :
  let h := Binary64.host_at Binary64.zero in
  let s := Binary64.mkSettings
             (Binary64.of_Z 100) (Binary64.lit 104 10) (Binary64.of_Z 10)
             (Binary64.of_Z 100) (Binary64.lit 996 10) (Binary64.of_Z 40) in
  let z := Binary64.zone (Binary64.onSettings s h Binary64.initial) in
  let z' := Binary64.load_config s Binary64.initial in
  let pct := Binary64.lit 1 1000 in
  let s2 := Binary64.mkSettings
              (Binary64.of_Z 100) (Binary64.lit 15 10) (Binary64.of_Z 10)
              (Binary64.of_Z 100) (Binary64.lit 145 10) (Binary64.lit 15 10) in
  let z2 := Binary64.zone (Binary64.onSettings s2 h Binary64.initial) in
  let tiny := S754_finite false 4503599627370496 (-112) in
  (Binary64._minBrightness z = Binary64.div (Binary64.lit 104 10) Binary64.hundred
   /\ Binary64._sunsetTemp z = Binary64.div (Binary64.lit 996 10) Binary64.hundred
   /\ Binary64._minBrightness z' = Binary64.lit 10 100
   /\ Binary64._sunsetTemp z' = Binary64.lit 100 100)
  /\ (SFleb (Binary64._minBrightness z) (Binary64._maxBrightness z) = true
      /\ SFltb (Binary64._noonTemp z) (Binary64._sunsetTemp z) = true
      /\ SFltb Binary64.zero pct = true /\ SFleb pct Binary64.one = true)
  /\ (Binary64.brightness_of z pct = Binary64.lit 10 100
      /\ SFltb (Binary64.brightness_of z pct) (Binary64._minBrightness z) = true
      /\ Binary64.temperature_of z Binary64.zero = Binary64.lit 100 100
      /\ SFeqb (Binary64.temperature_of z Binary64.zero) (Binary64._sunsetTemp z)
         = false)
  /\ (SFleb (Binary64._minBrightness z') (Binary64.brightness_of z' pct) = true
      /\ SFeqb (Binary64.temperature_of z' Binary64.zero) (Binary64._sunsetTemp z')
         = true)
  /\ (SFltb (Binary64._noonTemp z2) (Binary64._sunsetTemp z2) = true
      /\ SFltb Binary64.zero tiny = true
      /\ Binary64.temperature_of z2 Binary64.zero = Binary64.lit 14 100
      /\ Binary64.temperature_of z2 tiny = Binary64.lit 15 100).
Proof.
  cbv zeta. repeat split; vm_compute; reflexivity.
Qed.

(** ** Further properties of the code *)

(** X2.  A percentage that is zero or negative is clamped: in adaptive mode
    [updateFromPercentage] then leaves exactly the values it leaves for
    percentage 0, the rounded minimum brightness and sunset temperature. *)
Theorem updateFromPercentage_clamps_below (h : Host) (z : CircadianZone) (pct : num) :
  _mode z = "adaptive" -> pct <= 0 ->
  values (zone (updateFromPercentage pct h z))
  = (round2 (_minBrightness z), round2 (_sunsetTemp z))
  /\ values (zone (updateFromPercentage pct h z))
     = values (zone (updateFromPercentage 0 h z)).
Proof.
  intros Hm Hp.
  destruct (updateFromPercentage_adaptive h z pct Hm) as (Hz & _).
  destruct (updateFromPercentage_adaptive h z 0 Hm) as (Hz0 & _).
  rewrite Hz, Hz0. unfold values. cbn.
  unfold brightness_of, temperature_of.
  apply gt_false in Hp. rewrite Hp. now split.
Qed.

Lemma updateFromPercentage_clamps_below_witness :
  values (zone (updateFromPercentage (lit (-3) 10) (host_at 0) initial))
  = (round2 (lit 10 100), round2 (lit 100 100)).
Proof.
  assert (Hp : lit (-3) 10 <= 0) by discriminate.
  exact (proj1 (updateFromPercentage_clamps_below (host_at 0) initial
                  (lit (-3) 10) eq_refl Hp)).
Defined.

(** *** Capability writes of the recompute paths *)

(** X3.  In adaptive mode [updateFromPercentage] writes [dim] exactly when
    the brightness it leaves differs from the one it found, and
    [light_temperature] exactly when the temperature does, each with the new
    value and in that order; it writes nothing else.  Both values it leaves
    are whole numbers of hundredths. *)
Theorem updateFromPercentage_writes_changed_axes
    (h : Host) (z : CircadianZone) (pct : num) :
  _mode z = "adaptive" ->
  let r := updateFromPercentage pct h z in
  let z' := zone r in
  persisted (trace r) =
    ((if neq (_currentBrightness z') (_currentBrightness z)
      then [("dim", VNumber (_currentBrightness z'))] else [])
     ++ (if neq (_currentTemperature z') (_currentTemperature z)
         then [("light_temperature", VNumber (_currentTemperature z'))] else []))%list
  /\ round2 (_currentBrightness z') = _currentBrightness z'
  /\ round2 (_currentTemperature z') = _currentTemperature z'.
Proof.
  intros Hm r z'.
  destruct (updateFromPercentage_adaptive h z pct Hm) as (Hz & _ & Hp).
  fold r in Hz, Hp. subst z'. rewrite Hz, Hp.
  cbn [_currentBrightness _currentTemperature
       set_currentBrightness set_currentTemperature].
  repeat split; apply round2_hundredths.
Qed.

Lemma updateFromPercentage_writes_changed_axes_witness :
  let z := set_currentTemperature (lit 70 100) initial in
  persisted (trace (updateFromPercentage (lit 5 10) (host_at 0) z))
  = [("dim", VNumber (_currentBrightness
                        (zone (updateFromPercentage (lit 5 10) (host_at 0) z))))].
Proof.
  intros z.
  pose proof (updateFromPercentage_writes_changed_axes (host_at 0) z (lit 5 10)
                eq_refl) as (Hp & _).
  exact Hp.
Defined.

(** X4.  [updateFromNightMode] always leaves the night targets.  When the
    zone already holds them it only logs; otherwise it writes both [dim] and
    [light_temperature], also the one whose value did not change, and sends
    one notification with the night targets.  A second call only logs. *)
Theorem updateFromNightMode_outcome (h h' : Host) (z : CircadianZone) :
  let r := updateFromNightMode h z in
  values (zone r) = night_targets z
  /\ (values z = night_targets z -> r = (tt, z, [Log AlreadyAtNightTargets]))
  /\ (values z <> night_targets z ->
      persisted (trace r) =
        [("dim", VNumber (_nightBrightness z));
         ("light_temperature", VNumber (_nightTemperature z))]
      /\ notifications (trace r) = [night_targets z])
  /\ updateFromNightMode h' (zone r) = (tt, zone r, [Log AlreadyAtNightTargets]).
Proof.
  intros r.
  assert (Same : forall k w, values w = night_targets w ->
            updateFromNightMode k w = (tt, w, [Log AlreadyAtNightTargets])).
  { intros k w E. unfold values, night_targets in E. injection E as Eb Et.
    unfold updateFromNightMode. unfold_run.
    now rewrite Eb, Et, !neq_refl. }
  destruct (updateFromNightMode_run h z) as (Hz & Hn & Hp). fold r in Hz, Hn, Hp.
  assert (Hv : values (zone r) = night_targets z) by now rewrite Hz.
  split; [exact Hv|]. split; [apply Same|]. split.
  - intros Hd.
    assert (C : neq (_currentBrightness z) (_nightBrightness z)
                || neq (_currentTemperature z) (_nightTemperature z) = true).
    { rewrite (neq_sym (_currentBrightness z)), (neq_sym (_currentTemperature z)).
      apply orb_neq_values. intros E. apply Hd. now symmetry. }
    rewrite C in Hn, Hp. now split.
  - apply Same. rewrite Hv, Hz. reflexivity.
Qed.

(** *** Modes other than adaptive and night *)

(** X5.  While the mode is neither adaptive nor night (manual, or any other
    string), the values stand: a percentage push and [refreshZone] return
    the zone as it was, and a settings update, accepted or not, leaves the
    values and the mode as they were, writes no capability and sends no
    notification. *)
Theorem values_stand_outside_adaptive_and_night
    (h : Host) (z : CircadianZone) (pct : num) (s : Settings) :
  _mode z <> "adaptive" -> _mode z <> "night" ->
  zone (updateFromPercentage pct h z) = z
  /\ refreshZone h z = (tt, z, [])
  /\ (let r := onSettings s h z in
      values (zone r) = values z
      /\ _mode (zone r) = _mode z
      /\ persisted (trace r) = []
      /\ notifications (trace r) = []).
Proof.
  intros Ha Hn. split; [|split].
  - now rewrite (updateFromPercentage_not_adaptive h z pct Ha).
  - exact (refreshZone_other h z Ha Hn).
  - destruct (gt (sunset_temp s) (noon_temp s)) eqn:G.
    + rewrite (onSettings_accepted h z s G).
      rewrite (refreshZone_other h (set_config s z) Ha Hn). now repeat split.
    + rewrite (onSettings_rejected h z s G). now repeat split.
Qed.

Lemma values_stand_outside_adaptive_and_night_witness :
  let z := set_mode "manual" initial in
  let s := mkSettings (lit 80 1) (lit 20 1) (lit 5 1) (lit 90 1) (lit 90 1) (lit 30 1) in
  values (zone (onSettings s (host_at (lit 5 10)) z)) = values z.
Proof.
  intros z s.
  assert (Ha : _mode z <> "adaptive") by discriminate.
  assert (Hn : _mode z <> "night") by discriminate.
  destruct (values_stand_outside_adaptive_and_night
              (host_at (lit 5 10)) z 0 s Ha Hn) as (_ & _ & Hs & _).
  exact Hs.
Defined.

Lemma updateFromNightMode_outcome_witness :
  persisted (trace (updateFromNightMode (host_at 0) initial))
  = [("dim", VNumber (lit 10 100)); ("light_temperature", VNumber (lit 100 100))].
Proof.
  destruct (updateFromNightMode_outcome (host_at 0) (host_at 0) initial)
    as (_ & _ & Hd & _).
  apply Hd. discriminate.
Defined.

(** *** The override *)

(** X6.  An override in which each axis is either not given (negative) or
    equal to the value already held does nothing at all: the zone is
    returned as it was, in particular it is not switched to manual mode,
    and there is no host call. *)
Theorem override_without_change (h : Host) (z : CircadianZone) (b t : num) :
  b < 0 \/ b = _currentBrightness z ->
  t < 0 \/ t = _currentTemperature z ->
  overrideCurrentBrightnessTemperature b t h z = (tt, z, []).
Proof.
  intros Hb Ht.
  pose proof (override_run h z b t) as E. cbv zeta in E.
  assert (C1 : ge b 0 && neq (_currentBrightness z) b = false).
  { destruct Hb as [Hb|Hb].
    - apply ge_false in Hb. now rewrite Hb.
    - subst b. rewrite neq_refl. apply andb_false_r. }
  assert (C2 : ge t 0 && neq (_currentTemperature z) t = false).
  { destruct Ht as [Ht|Ht].
    - apply ge_false in Ht. now rewrite Ht.
    - subst t. rewrite neq_refl. apply andb_false_r. }
  now rewrite C1, C2 in E.
Qed.

Lemma override_without_change_witness :
  overrideCurrentBrightnessTemperature (lit 100 100) (lit (-1) 2)
    (host_at 0) initial = (tt, initial, []).
Proof.
  apply override_without_change.
  - right. apply Qc_is_canon. reflexivity.
  - left. reflexivity.
Defined.

(** X7.  An override that changes a value leaves the zone in manual mode
    with its configuration untouched; the only capability it writes is
    [adaptive_mode], set to "manual", and only when the zone was not in
    manual mode already.  It never writes [dim] or [light_temperature]. *)
Theorem override_with_change (h : Host) (z : CircadianZone) (b t : num) :
  let r := overrideCurrentBrightnessTemperature b t h z in
  values (zone r) <> values z ->
  _mode (zone r) = "manual"
  /\ config (zone r) = config z
  /\ persisted (trace r) =
       (if String.eqb (_mode z) "manual" then []
        else [("adaptive_mode", VString "manual")]).
Proof.
  intros r Hv.
  pose proof (override_run h z b t) as E. cbv zeta in E. fold r in E.
  destruct (ge b 0 && neq (_currentBrightness z) b) eqn:C1;
    destruct (ge t 0 && neq (_currentTemperature z) t) eqn:C2;
    cbn [orb] in E; rewrite E in Hv |- *;
    try (now elim Hv);
    unfold zone, trace; cbn [fst snd];
    (split; [reflexivity|]); (split; [reflexivity|]);
    destruct (String.eqb (_mode z) "manual"); reflexivity.
Qed.

Lemma override_with_change_witness :
  let r := overrideCurrentBrightnessTemperature minus_one (lit 5 10)
             (host_at 0) initial in
  _mode (zone r) = "manual"
  /\ persisted (trace r) = [("adaptive_mode", VString "manual")].
Proof.
  intros r.
  assert (Hv : values (zone r) <> values initial).
  { intros E. apply (f_equal (fun v : num * num => Qnum (snd v))) in E.
    vm_compute in E. discriminate E. }
  destruct (override_with_change (host_at 0) initial minus_one (lit 5 10) Hv)
    as (Hm & _ & Hp).
  split; [exact Hm | exact Hp].
Defined.

(** *** Mode switches *)

Lemma zone_of {A} (a : A) (z : CircadianZone) (t : list effect) :
  zone (a, z, t) = z.
Proof. reflexivity. Qed.

Lemma trace_of {A} (a : A) (z : CircadianZone) (t : list effect) :
  trace (a, z, t) = t.
Proof. reflexivity. Qed.

(** X8.  What a mode switch leaves in the two values: switching to night
    leaves the night targets, switching to adaptive leaves the targets of
    the driver's current percentage, and switching to any other mode leaves
    the values as they were, with no notification.  The configuration is
    never touched. *)
Theorem setMode_values (h : Host) (z : CircadianZone) (s : string) :
  s <> _mode z ->
  let r := setMode s h z in
  config (zone r) = config z
  /\ (s = "night" -> values (zone r) = night_targets z)
  /\ (s = "adaptive" -> values (zone r) = targets z (getPercentage h))
  /\ (s <> "adaptive" -> s <> "night" ->
      values (zone r) = values z /\ notifications (trace r) = []).
Proof.
  intros Hs r.
  destruct (string_dec s "adaptive") as [Ea|Ea];
    [|destruct (string_dec s "night") as [En|En]].
  - pose proof (setMode_refresh h z s Hs (or_introl Ea)) as E. fold r in E.
    rewrite E, !zone_of.
    assert (Hm : _mode (set_mode s z) = "adaptive") by exact Ea.
    rewrite (refreshZone_adaptive h _ Hm).
    destruct (updateFromPercentage_adaptive h _ (getPercentage h) Hm) as (Hz & _).
    rewrite Hz. split; [reflexivity|]. split; [intros En; congruence|].
    split; [intros _; reflexivity | intros H; now elim H].
  - pose proof (setMode_refresh h z s Hs (or_intror En)) as E. fold r in E.
    rewrite E, !zone_of.
    assert (Hm : _mode (set_mode s z) = "night") by exact En.
    rewrite (refreshZone_night h _ Hm).
    destruct (updateFromNightMode_run h (set_mode s z)) as (Hz & _).
    rewrite Hz. split; [reflexivity|]. split; [intros _; reflexivity|].
    split; [intros Ha; congruence | intros _ H; now elim H].
  - subst r. rewrite (setMode_no_refresh h z s Hs Ea En).
    split; [reflexivity|]. split; [intros H; now elim En|].
    split; [intros H; now elim Ea | intros _ _; now split].
Qed.

Lemma setMode_values_witness :
  values (zone (setMode "night" (host_at 0) initial)) = (lit 10 100, lit 100 100).
Proof.
  assert (Hs : "night" <> _mode initial) by discriminate.
  destruct (setMode_values (host_at 0) initial "night" Hs) as (_ & Hn & _).
  exact (Hn eq_refl).
Defined.

(** *** Recomputing at rest *)

Lemma targets_config (z z' : CircadianZone) (pct : num) :
  config z' = config z -> targets z' pct = targets z pct.
Proof.
  unfold config, targets. intros E. injection E as Es En Emin Emax _ _.
  f_equal; [now apply brightness_of_config | now apply temperature_of_config].
Qed.

Lemma night_targets_config (z z' : CircadianZone) :
  config z' = config z -> night_targets z' = night_targets z.
Proof.
  unfold config, night_targets. intros E. injection E as _ _ _ _ Et Eb.
  congruence.
Qed.

Lemma updateFromPercentage_at_targets (h : Host) (z : CircadianZone) (pct : num) :
  _mode z = "adaptive" -> values z = targets z pct ->
  let r := updateFromPercentage pct h z in
  zone r = z /\ notifications (trace r) = [] /\ persisted (trace r) = [].
Proof.
  intros Hm Hv r. unfold values, targets in Hv. injection Hv as Eb Et.
  destruct (updateFromPercentage_adaptive h z pct Hm) as (Hz & Hn & Hp).
  fold r in Hz, Hn, Hp.
  rewrite <- Eb, <- Et in Hz, Hn, Hp. rewrite !neq_refl in Hn, Hp.
  rewrite set_currentBrightness_same, set_currentTemperature_same in Hz.
  now repeat split.
Qed.

Lemma updateFromNightMode_at_targets (h : Host) (z : CircadianZone) :
  values z = night_targets z ->
  updateFromNightMode h z = (tt, z, [Log AlreadyAtNightTargets]).
Proof.
  intros E. unfold values, night_targets in E. injection E as Eb Et.
  unfold updateFromNightMode. unfold_run. now rewrite Eb, Et, !neq_refl.
Qed.

(** the zone holds what [refreshZone] would compute from host [h] *)
Lemma refreshZone_at_rest (h : Host) (z : CircadianZone) :
  (_mode z = "night" -> values z = night_targets z) ->
  (_mode z = "adaptive" -> values z = targets z (getPercentage h)) ->
  let r := refreshZone h z in
  zone r = z /\ notifications (trace r) = [] /\ persisted (trace r) = [].
Proof.
  intros Hn Ha r. subst r.
  destruct (string_dec (_mode z) "adaptive") as [Ea|Ea].
  - rewrite (refreshZone_adaptive h z Ea).
    now apply updateFromPercentage_at_targets; [|apply Ha].
  - destruct (string_dec (_mode z) "night") as [En|En].
    + rewrite (refreshZone_night h z En).
      rewrite (updateFromNightMode_at_targets h z (Hn En)). now repeat split.
    + rewrite (refreshZone_other h z Ea En). now repeat split.
Qed.

Lemma refreshZone_rests (h : Host) (z : CircadianZone) :
  let z' := zone (refreshZone h z) in
  (_mode z' = "night" -> values z' = night_targets z')
  /\ (_mode z' = "adaptive" -> values z' = targets z' (getPercentage h)).
Proof.
  intros z'. destruct (refreshZone_mode_config h z) as (Hm & Hc).
  fold z' in Hm, Hc. rewrite Hm.
  rewrite (targets_config z z' _ Hc), (night_targets_config z z' Hc).
  subst z'. split; intros E.
  - rewrite (refreshZone_night h z E).
    destruct (updateFromNightMode_run h z) as (Hz & _). now rewrite Hz.
  - rewrite (refreshZone_adaptive h z E).
    destruct (updateFromPercentage_adaptive h z (getPercentage h) E) as (Hz & _).
    now rewrite Hz.
Qed.

Lemma set_config_same (s : Settings) (z w : CircadianZone) :
  config w = config (set_config s z) -> set_config s w = w.
Proof.
  destruct w. unfold config, set_config. cbn. intros E.
  injection E as -> -> -> -> -> ->. reflexivity.
Qed.

(** X9.  [refreshZone] is idempotent while the driver's percentage stays
    put: run again on the zone it returned, it returns that zone, writes no
    capability and sends no notification, in every mode. *)
Theorem refreshZone_twice (h : Host) (z : CircadianZone) :
  let r1 := refreshZone h z in
  let r2 := refreshZone h (zone r1) in
  zone r2 = zone r1 /\ notifications (trace r2) = [] /\ persisted (trace r2) = [].
Proof.
  intros r1 r2. destruct (refreshZone_rests h z) as (Hn & Ha).
  exact (refreshZone_at_rest h (zone r1) Hn Ha).
Qed.

(** X10.  What accepted settings leave in the two values: in night mode the
    new night targets, in adaptive mode the targets of the driver's
    percentage under the new configuration; the mode is kept.  Applying the
    same settings a second time changes nothing, writes no capability and
    sends no notification. *)
Theorem onSettings_values (h : Host) (z : CircadianZone) (s : Settings) :
  noon_temp s < sunset_temp s ->
  let r := onSettings s h z in
  let r' := onSettings s h (zone r) in
  _mode (zone r) = _mode z
  /\ (_mode z = "night" ->
      values (zone r) = (night_brightness s / hundred, night_temp s / hundred))
  /\ (_mode z = "adaptive" ->
      values (zone r) = targets (set_config s z) (getPercentage h))
  /\ zone r' = zone r
  /\ notifications (trace r') = []
  /\ persisted (trace r') = [].
Proof.
  intros Hs r r'. apply gt_true in Hs.
  pose proof (onSettings_accepted h z s Hs) as E. fold r in E.
  set (z1 := set_config s z) in *.
  destruct (refreshZone_mode_config h z1) as (Hm & Hc).
  destruct (refreshZone_rests h z1) as (Hn & Ha).
  assert (Ez : zone r = zone (refreshZone h z1)) by now rewrite E.
  rewrite Ez.
  split; [exact Hm|]. split; [|split].
  - intros En. rewrite Hn by now rewrite Hm.
    now rewrite (night_targets_config z1 _ Hc).
  - intros Ea. rewrite Ha by now rewrite Hm.
    now rewrite (targets_config z1 _ _ Hc).
  - subst r'. rewrite Ez, (onSettings_accepted h _ s Hs).
    rewrite (set_config_same s z _ Hc).
    destruct (refreshZone_at_rest h _ Hn Ha) as (Hz' & Hn' & Hp').
    rewrite zone_of, trace_of. cbn [notifications persisted].
    now repeat split.
Qed.

Lemma onSettings_values_witness :
  let s := mkSettings hundred (lit 10 1) (lit 20 1) (lit 90 1) hundred (lit 40 1) in
  let z := set_mode "night" initial in
  values (zone (onSettings s (host_at 0) z)) = (lit 20 1 / hundred, lit 90 1 / hundred).
Proof.
  intros s z.
  assert (Hs : noon_temp s < sunset_temp s) by reflexivity.
  destruct (onSettings_values (host_at 0) z s Hs) as (_ & Hn & _).
  exact (Hn eq_refl).
Defined.

(** *** Events *)

Lemma log_then (msg : message) (m : M unit) (h : Host) (z : CircadianZone) :
  (log msg ;; m) h z = (tt, zone (m h z), Log msg :: trace (m h z)).
Proof. unfold_run. now destruct (m h z) as [[[] ?] ?]. Qed.

Lemma handle_AdaptiveModeSet (v : string) (h : Host) (z : CircadianZone) :
  handle (AdaptiveModeSet v) h z =
  (tt, zone (setMode v h z), Log (ModeChangedTo v) :: trace (setMode v h z)).
Proof. apply log_then. Qed.

Lemma handle_LightTemperatureSet (t : num) (h : Host) (z : CircadianZone) :
  let r := overrideCurrentBrightnessTemperature minus_one t h z in
  handle (LightTemperatureSet t) h z =
  (tt, zone r, Log (TemperatureOverrideTo t) :: trace r).
Proof. apply log_then. Qed.

Lemma handle_DimSet (b : num) (h : Host) (z : CircadianZone) :
  let r := overrideCurrentBrightnessTemperature b minus_one h z in
  handle (DimSet b) h z = (tt, zone r, Log (DimOverrideTo b) :: trace r).
Proof. apply log_then. Qed.

Lemma handle_SettingsChanged (s : Settings) (h : Host) (z : CircadianZone) :
  handle (SettingsChanged s) h z =
  (tt, zone (onSettings s h z), trace (onSettings s h z)).
Proof.
  cbn [handle]. unfold_run.
  destruct (onSettings s h z) as [[o z'] t]. cbn. now rewrite app_nil_r.
Qed.

Lemma setMode_mode_config (s : string) (h : Host) (z : CircadianZone) :
  let r := setMode s h z in
  _mode (zone r) = s /\ config (zone r) = config z.
Proof.
  intros r. subst r.
  destruct (string_dec s (_mode z)) as [E|E].
  - subst s. rewrite setMode_same. now split.
  - destruct (string_dec s "adaptive") as [Ea|Ea];
      [|destruct (string_dec s "night") as [En|En]].
    1, 2: assert (Hr : s = "adaptive" \/ s = "night") by tauto;
          rewrite (setMode_refresh h z s E Hr), zone_of;
          exact (refreshZone_mode_config h (set_mode s z)).
    rewrite (setMode_no_refresh h z s E Ea En). now split.
Qed.

Lemma override_mode_config (b t : num) (h : Host) (z : CircadianZone) :
  let r := overrideCurrentBrightnessTemperature b t h z in
  config (zone r) = config z
  /\ (r = (tt, z, []) \/ _mode (zone r) = "manual")
  /\ persisted (trace r) =
       (if String.eqb (_mode (zone r)) (_mode z) then []
        else [("adaptive_mode", VString (_mode (zone r)))]).
Proof.
  intros r. pose proof (override_run h z b t) as E. cbv zeta in E. fold r in E.
  destruct (ge b 0 && neq (_currentBrightness z) b),
           (ge t 0 && neq (_currentTemperature z) t);
    cbn [orb] in E; rewrite E, ?zone_of, ?trace_of;
    cbn [_mode config set_mode set_currentBrightness set_currentTemperature
         _sunsetTemp _noonTemp _minBrightness _maxBrightness
         _nightTemperature _nightBrightness];
    (split; [reflexivity|]).
  4: { split; [now left|]. now rewrite (String.eqb_refl (_mode z)). }
  all: split; [now right|];
       rewrite (String.eqb_sym "manual");
       destruct (String.eqb (_mode z) "manual"); reflexivity.
Qed.

Lemma onSettings_mode (s : Settings) (h : Host) (z : CircadianZone) :
  _mode (zone (onSettings s h z)) = _mode z.
Proof.
  destruct (gt (sunset_temp s) (noon_temp s)) eqn:G.
  - rewrite (onSettings_accepted h z s G), zone_of.
    exact (proj1 (refreshZone_mode_config h (set_config s z))).
  - now rewrite (onSettings_rejected h z s G).
Qed.

Lemma written_SetCapabilityValue (k k' : string) (v : value) (t : list effect) :
  written k (SetCapabilityValue k' v :: t) =
  (if String.eqb k' k then v :: written k t else written k t).
Proof.
  unfold written. cbn [persisted filter fst].
  now destruct (String.eqb k' k).
Qed.

Lemma written_Log (k : string) (m : message) (t : list effect) :
  written k (Log m :: t) = written k t.
Proof. reflexivity. Qed.

Lemma written_mode_updateFromPercentage (pct : num) (h : Host) (z : CircadianZone) :
  written "adaptive_mode" (trace (updateFromPercentage pct h z)) = [].
Proof.
  destruct (string_dec (_mode z) "adaptive") as [E|E].
  - destruct (updateFromPercentage_adaptive h z pct E) as (_ & _ & Hp).
    unfold written. rewrite Hp.
    now destruct (neq _ (_currentBrightness z)), (neq _ (_currentTemperature z)).
  - now rewrite (updateFromPercentage_not_adaptive h z pct E).
Qed.

Lemma written_mode_refreshZone (h : Host) (z : CircadianZone) :
  written "adaptive_mode" (trace (refreshZone h z)) = [].
Proof.
  destruct (string_dec (_mode z) "adaptive") as [Ea|Ea].
  - rewrite (refreshZone_adaptive h z Ea). apply written_mode_updateFromPercentage.
  - destruct (string_dec (_mode z) "night") as [En|En].
    + rewrite (refreshZone_night h z En).
      destruct (updateFromNightMode_run h z) as (_ & _ & Hp).
      unfold written. rewrite Hp.
      now destruct (neq (_currentBrightness z) _ || neq (_currentTemperature z) _).
    + now rewrite (refreshZone_other h z Ea En).
Qed.

Lemma written_mode_setMode (s : string) (h : Host) (z : CircadianZone) :
  written "adaptive_mode" (trace (setMode s h z)) =
  (if String.eqb s (_mode z) then [] else [VString s]).
Proof.
  destruct (String.eqb_spec s (_mode z)) as [E|E].
  - subst s. now rewrite setMode_same.
  - destruct (string_dec s "adaptive") as [Ea|Ea];
      [|destruct (string_dec s "night") as [En|En]].
    1, 2: assert (Hr : s = "adaptive" \/ s = "night") by tauto;
          rewrite (setMode_refresh h z s E Hr), trace_of;
          rewrite written_SetCapabilityValue, written_Log;
          now rewrite (written_mode_refreshZone h (set_mode s z)).
    now rewrite (setMode_no_refresh h z s E Ea En).
Qed.

Lemma onSettings_notifies (s : Settings) : notifies_iff_changed (onSettings s).
Proof.
  intros h z r. subst r.
  destruct (gt (sunset_temp s) (noon_temp s)) eqn:G.
  - rewrite (onSettings_accepted h z s G).
    apply (notifies_transfer (refreshZone h (set_config s z)) _ z (set_config s z));
      [reflexivity | reflexivity | reflexivity | apply refreshZone_notifies].
  - rewrite (onSettings_rejected h z s G).
    apply (notifies_from_flag (fun _ _ => (Some _, z, _)) h z (values z) false);
      [reflexivity | reflexivity | discriminate].
Qed.

(** X11.  Whatever the event, its handler sends a values-changed
    notification if and only if it changed [_currentBrightness] or
    [_currentTemperature], and then exactly one, carrying the resulting
    values; this includes settings updates. *)
Theorem every_event_notifies_iff_changed :
  (forall s, notifies_iff_changed (onSettings s))
  /\ (forall e, notifies_iff_changed (handle e)).
Proof.
  split; [exact onSettings_notifies|].
  intros [v|t|b|s|pct] h z r; subst r.
  - rewrite handle_AdaptiveModeSet.
    apply (notifies_transfer (setMode v h z) _ z z);
      [reflexivity | reflexivity | reflexivity | apply setMode_notifies].
  - exact (light_temperature_listener_notifies t h z).
  - exact (dim_listener_notifies b h z).
  - rewrite handle_SettingsChanged.
    apply (notifies_transfer (onSettings s h z) _ z z);
      [reflexivity | reflexivity | reflexivity | apply onSettings_notifies].
  - exact (updateFromPercentage_notifies pct h z).
Qed.

(** X12.  Only a settings update changes the configuration, and only a mode
    capability change or an override changes the mode: every other event
    returns the six configured values, respectively the mode, as they
    were. *)
Theorem event_frame (e : event) (h : Host) (z : CircadianZone) :
  let z' := zone (handle e h z) in
  ((forall s, e <> SettingsChanged s) -> config z' = config z)
  /\ ((forall s, e = SettingsChanged s ->
       ~ noon_temp s < sunset_temp s -> config z' = config z))
  /\ ((forall v, e <> AdaptiveModeSet v) ->
      _mode z' = _mode z \/ _mode z' = "manual")
  /\ ((exists s, e = SettingsChanged s) \/ (exists pct, e = PercentageRecalculated pct) ->
      _mode z' = _mode z).
Proof.
  intros z'. subst z'. destruct e as [v|t|b|s|pct].
  - rewrite handle_AdaptiveModeSet, zone_of.
    destruct (setMode_mode_config v h z) as (_ & Hc).
    split; [intros _; exact Hc|]. split; [discriminate|].
    split; [intros H; now elim (H v)|].
    intros [[s E]|[p E]]; discriminate.
  - rewrite handle_LightTemperatureSet, zone_of.
    destruct (override_mode_config minus_one t h z) as (Hc & [E|Hm] & _).
    + rewrite E.
      split; [reflexivity|]. split; [discriminate|].
      split; [now left|]. intros [[s E']|[p E']]; discriminate.
    + split; [intros _; exact Hc|]. split; [discriminate|].
      split; [now right|]. intros [[s E']|[p E']]; discriminate.
  - rewrite handle_DimSet, zone_of.
    destruct (override_mode_config b minus_one h z) as (Hc & [E|Hm] & _).
    + rewrite E.
      split; [reflexivity|]. split; [discriminate|].
      split; [now left|]. intros [[s E']|[p E']]; discriminate.
    + split; [intros _; exact Hc|]. split; [discriminate|].
      split; [now right|]. intros [[s E']|[p E']]; discriminate.
  - rewrite handle_SettingsChanged, zone_of.
    split; [intros H; now elim (H s)|]. split.
    + intros s' E Hn. injection E as <-.
      assert (G : gt (sunset_temp s) (noon_temp s) = false).
      { destruct (gt (sunset_temp s) (noon_temp s)) eqn:G; [|reflexivity].
        apply gt_true in G. now elim Hn. }
      now rewrite (onSettings_rejected h z s G).
    + split; [intros _; left|intros _]; apply onSettings_mode.
  - cbn [handle].
    destruct (updateFromPercentage_mode_config h z pct) as (Hm & Hc).
    split; [intros _; exact Hc|]. split; [discriminate|].
    split; [intros _; now left | intros _; exact Hm].
Qed.

Lemma event_frame_witness :
  config (zone (handle (DimSet (lit 5 10)) (host_at 0) initial)) = config initial.
Proof.
  apply (event_frame (DimSet (lit 5 10)) (host_at 0) initial).
  discriminate.
Defined.

(** X13.  The [adaptive_mode] capability is kept in step with the mode:
    every event handler writes it exactly when it changes the mode, once,
    with the new mode. *)
Theorem mode_written_iff_changed (e : event) (h : Host) (z : CircadianZone) :
  let r := handle e h z in
  written "adaptive_mode" (trace r) =
  (if String.eqb (_mode (zone r)) (_mode z) then []
   else [VString (_mode (zone r))]).
Proof.
  intros r. subst r. destruct e as [v|t|b|s|pct].
  - rewrite handle_AdaptiveModeSet, zone_of, trace_of, written_Log.
    rewrite (proj1 (setMode_mode_config v h z)).
    apply written_mode_setMode.
  - rewrite handle_LightTemperatureSet, zone_of, trace_of, written_Log.
    destruct (override_mode_config minus_one t h z) as (_ & _ & Hp).
    unfold written. rewrite Hp. now destruct (String.eqb _ (_mode z)).
  - rewrite handle_DimSet, zone_of, trace_of, written_Log.
    destruct (override_mode_config b minus_one h z) as (_ & _ & Hp).
    unfold written. rewrite Hp. now destruct (String.eqb _ (_mode z)).
  - rewrite handle_SettingsChanged, zone_of, trace_of.
    rewrite onSettings_mode, String.eqb_refl.
    destruct (gt (sunset_temp s) (noon_temp s)) eqn:G.
    + rewrite (onSettings_accepted h z s G), trace_of, written_Log.
      apply written_mode_refreshZone.
    + now rewrite (onSettings_rejected h z s G).
  - cbn [handle].
    rewrite (proj1 (updateFromPercentage_mode_config h z pct)), String.eqb_refl.
    apply written_mode_updateFromPercentage.
Qed.

(** *** Values agree with the mode *)

Lemma settled_other_mode (z : CircadianZone) :
  _mode z <> "adaptive" -> _mode z <> "night" -> settled z.
Proof. intros Ha Hn. split; intros E; [now elim Hn | now elim Ha]. Qed.

Lemma refreshZone_settled (h : Host) (z : CircadianZone) :
  settled (zone (refreshZone h z)).
Proof.
  destruct (refreshZone_rests h z) as (Hn & Ha).
  split; [exact Hn|]. intros E. exists (getPercentage h). now apply Ha.
Qed.

Lemma updateFromPercentage_settled (pct : num) (h : Host) (z : CircadianZone) :
  settled z -> settled (zone (updateFromPercentage pct h z)).
Proof.
  intros S. destruct (string_dec (_mode z) "adaptive") as [E|E].
  - destruct (updateFromPercentage_adaptive h z pct E) as (Hz & _).
    rewrite Hz. split; intros E'.
    + cbn in E'. congruence.
    + exists pct. reflexivity.
  - now rewrite (updateFromPercentage_not_adaptive h z pct E).
Qed.

Lemma setMode_settled (s : string) (h : Host) (z : CircadianZone) :
  settled z -> settled (zone (setMode s h z)).
Proof.
  intros S. destruct (string_dec s (_mode z)) as [E|E].
  - subst s. now rewrite setMode_same.
  - destruct (string_dec s "adaptive") as [Ea|Ea];
      [|destruct (string_dec s "night") as [En|En]].
    1, 2: assert (Hr : s = "adaptive" \/ s = "night") by tauto;
          rewrite (setMode_refresh h z s E Hr), zone_of;
          apply refreshZone_settled.
    rewrite (setMode_no_refresh h z s E Ea En), zone_of.
    now apply settled_other_mode.
Qed.

Lemma override_settled (b t : num) (h : Host) (z : CircadianZone) :
  settled z -> settled (zone (overrideCurrentBrightnessTemperature b t h z)).
Proof.
  intros S. destruct (override_mode_config b t h z) as (_ & [E|Hm] & _).
  - now rewrite E.
  - apply settled_other_mode; rewrite Hm; discriminate.
Qed.

Lemma onSettings_settled (s : Settings) (h : Host) (z : CircadianZone) :
  settled z -> settled (zone (onSettings s h z)).
Proof.
  intros S. destruct (gt (sunset_temp s) (noon_temp s)) eqn:G.
  - rewrite (onSettings_accepted h z s G), zone_of. apply refreshZone_settled.
  - now rewrite (onSettings_rejected h z s G).
Qed.

Lemma handle_settled (e : event) (h : Host) (z : CircadianZone) :
  settled z -> settled (zone (handle e h z)).
Proof.
  intros S. destruct e as [v|t|b|s|pct].
  - rewrite handle_AdaptiveModeSet, zone_of. now apply setMode_settled.
  - rewrite handle_LightTemperatureSet, zone_of. now apply override_settled.
  - rewrite handle_DimSet, zone_of. now apply override_settled.
  - rewrite handle_SettingsChanged, zone_of. now apply onSettings_settled.
  - now apply updateFromPercentage_settled.
Qed.

Lemma run_settled (es : list (Host * event)) (z : CircadianZone) :
  settled z -> settled (fst (run es z)).
Proof.
  revert z. induction es as [|[h e] es IH]; intros z S.
  - exact S.
  - cbn [run]. specialize (IH _ (handle_settled e h z S)).
    now destruct (run es (zone (handle e h z))).
Qed.

Lemma onInit_zone (st : Stored) (h : Host) (z : CircadianZone) :
  fst (onInit st h z) = zone (refreshZone h (load st z)).
Proof. reflexivity. Qed.

(** X14.  The values agree with the mode at all times: [onInit] leaves a
    zone that holds the night targets if its mode is night and the targets
    of some percentage if its mode is adaptive, and every event handler
    keeps it so.  Hence in every zone reached from [onInit] by events, night
    mode means the night targets are in place, and adaptive mode means both
    values are whole numbers of hundredths. *)
Theorem values_agree_with_mode :
  (forall st h z, settled (fst (onInit st h z)))
  /\ (forall e h z, settled z -> settled (zone (handle e h z)))
  /\ (forall st h z0 es,
        let z := fst (run es (fst (onInit st h z0))) in
        (_mode z = "night" -> values z = night_targets z)
        /\ (_mode z = "adaptive" ->
            round2 (_currentBrightness z) = _currentBrightness z
            /\ round2 (_currentTemperature z) = _currentTemperature z)).
Proof.
  assert (I : forall st h z, settled (fst (onInit st h z))).
  { intros st h z. rewrite onInit_zone. apply refreshZone_settled. }
  split; [exact I|]. split; [exact handle_settled|].
  intros st h z0 es z.
  destruct (run_settled es _ (I st h z0)) as (Hn & Ha). fold z in Hn, Ha.
  split; [exact Hn|]. intros E. destruct (Ha E) as (pct & Hv).
  unfold values, targets in Hv. injection Hv as -> ->.
  split; apply round2_hundredths.
Qed.

Lemma values_agree_with_mode_witness :
  settled (zone (handle (AdaptiveModeSet "night") (host_at 0)
                   (fst (onInit nothing_stored (host_at (lit 5 10)) initial)))).
Proof.
  destruct values_agree_with_mode as (I & P & _).
  apply P, I.
Defined.

(** *** Initialisation *)

Lemma setting_or_hundredths (st : Stored) (key : string) (field : num) :
  round2 field = field ->
  round2 (setting_or st key field) = setting_or st key field.
Proof.
  intros H. unfold setting_or.
  destruct (getSetting st key); [apply round2_hundredths | exact H].
Qed.

Lemma load_config_hundredths (st : Stored) (h : Host) :
  let z := fst (onInit st h initial) in
  round2 (_sunsetTemp z) = _sunsetTemp z
  /\ round2 (_noonTemp z) = _noonTemp z
  /\ round2 (_minBrightness z) = _minBrightness z
  /\ round2 (_maxBrightness z) = _maxBrightness z
  /\ round2 (_nightTemperature z) = _nightTemperature z
  /\ round2 (_nightBrightness z) = _nightBrightness z.
Proof.
  intros z. subst z. rewrite onInit_zone.
  destruct (refreshZone_mode_config h (load st initial)) as (_ & Hc).
  unfold config in Hc. injection Hc as -> -> -> -> -> ->.
  cbn [load _sunsetTemp _noonTemp _minBrightness _maxBrightness
       _nightTemperature _nightBrightness].
  repeat split; apply setting_or_hundredths; qc_eq.
Qed.

(** X15.  After [onInit], whatever the host has stored, the six configured
    values are whole numbers of hundredths: a stored setting is rounded to a
    whole percentage before it is divided by 100, and a missing one leaves
    the default. *)
Theorem onInit_config_hundredths (st : Stored) (h : Host) :
  let z := fst (onInit st h initial) in
  round2 (_sunsetTemp z) = _sunsetTemp z
  /\ round2 (_noonTemp z) = _noonTemp z
  /\ round2 (_minBrightness z) = _minBrightness z
  /\ round2 (_maxBrightness z) = _maxBrightness z
  /\ round2 (_nightTemperature z) = _nightTemperature z
  /\ round2 (_nightBrightness z) = _nightBrightness z.
Proof. exact (load_config_hundredths st h). Qed.




